(** * package-generator: the answer-to-configuration helpers

    A shallow embedding of [src/lib/helpers.js]: the pure functions that
    derive dependency lists, scripts, the package manifest, the formatter
    options and the lint-staged tasks from the answers of the prompts
    (the [props] object), followed by the properties proved about them.

    Conventions of the embedding
    - a JavaScript string is a [string], one character per code unit; the
      answers this program handles (identifiers, package names, scope names)
      are ASCII text;
    - a property of [props] that a prompt may skip (its [when] guard) is an
      [option]: [None] is JavaScript's [undefined];
    - [throw] is the [Throw] constructor of [result]; evaluation order is the
      order of the binds;
    - an object used as a map is a [gmap string _]. *)

From Stdlib Require Import ZArith Ascii Sorting.Sorted Sorting.Permutation.
From stdpp Require Import base tactics option list strings gmap fin_maps.

Local Open Scope Z_scope.

(** ** JavaScript values and primitives *)

(** What a [throw] carries: [Error(message)] as thrown by the helpers, and
    the [TypeError] the engine raises for a property access on [undefined]. *)
Inductive exn : Type :=
  | Error (message : string)
  | TypeError.

(** The outcome of a call: a value, or an exception on its way to the
    caller. *)
Inductive result (A : Type) : Type :=
  | Ok (a : A)
  | Throw (e : exn).
Arguments Ok {A} a.
Arguments Throw {A} e.

(** Sequencing: an exception of the first computation skips the second. *)
Definition bind {A B : Type} (r : result A) (k : A → result B) : result B :=
  match r with
  | Ok a => k a
  | Throw e => Throw e
  end.

Notation "x ←! r ;; k" := (bind r (λ x, k))
  (at level 100, r at next level, k at level 200, right associativity).

(** [array.map(callback)] with a callback that may throw: elements are
    visited from index 0 and the first exception aborts the call. *)
Fixpoint mapM {A B : Type} (f : A → result B) (l : list A) : result (list B) :=
  match l with
  | [] => Ok []
  | x :: l' => y ←! f x ;; ys ←! mapM f l' ;; Ok (y :: ys)
  end.

(** [`${v}`]: template interpolation of a value that may be [undefined]. *)
Definition interpolate (v : option string) : string :=
  match v with
  | Some s => s
  | None => "undefined"
  end.

(** [array.includes(x)] on an array of strings. *)
Definition includes (l : list string) (x : string) : bool :=
  bool_decide (x ∈ l).

(** [v === 'literal'] for a property that holds a string or [undefined]. *)
Definition strictEq (v : option string) (s : string) : bool :=
  bool_decide (v = Some s).

(** [s.endsWith(t)]: some suffix of [s] is [t]. *)
Fixpoint endsWith (s t : string) : bool :=
  if String.eqb s t then true
  else match s with
       | EmptyString => false
       | String _ s' => endsWith s' t
       end.

(** [s.toLowerCase()] on ASCII text: the letters A-Z are mapped to a-z and
    every other character is kept. *)
Definition lowerChar (c : ascii) : ascii :=
  let n := N_of_ascii c in
  if ((65 <=? n) && (n <=? 90))%N then ascii_of_N (n + 32) else c.

Fixpoint toLowerCase (s : string) : string :=
  match s with
  | EmptyString => EmptyString
  | String c s' => String (lowerChar c) (toLowerCase s')
  end.

(** [array.join(',')], which is also [String(array)] for an array of strings. *)
Definition join (l : list string) : string := String.concat "," l.

(** ** The answers *)

(** The [props] object handed to the helpers: the answers of the prompts,
    with [repositoryName] added and [atomDependencies] split at commas by
    the generator. The prompts for [language], [bundler], the activation
    answers, [additionalDependencies], [babelPresets] and [eslintConfig] are
    guarded by the feature [code], [stylelintConfig] by [styles]. *)
Record Props : Type := {
  name : string;
  description : string;
  author : string;
  license : string;
  private : bool;
  repositoryName : string;
  features : list string;
  language : option string;
  bundler : option string;
  activationCommands : option bool;
  activationHooks : option (list string);
  rootScopeUsed : option string;
  grammarUsed : option string;
  workspaceOpenerURIs : option string;
  atomDependencies : option (list string);
  additionalDependencies : option (list string);
  babelPresets : option (list string);
  eslintConfig : option string;
  stylelintConfig : option string
}.

(** ** Language helpers *)

(** The two errors the helpers throw themselves. *)
Definition UnsupportedLanguage : exn := Error "Unsupported language selected".

Definition UnsupportedBundler (b : option string) : exn :=
  Error ("Unsupported bundler '" +:+ interpolate b +:+ "'").

(** [selectedLanguage.toLowerCase()] throws a [TypeError] on [undefined]. *)
Definition getLanguageExtension (selectedLanguage : option string) : result string :=
  match selectedLanguage with
  | None => Throw TypeError
  | Some l =>
      let l := toLowerCase l in
      if String.eqb l "typescript" then Ok "ts"
      else if String.eqb l "javascript" then Ok "js"
      else if String.eqb l "coffeescript" then Ok "coffee"
      else Throw UnsupportedLanguage
  end.

(** ** Node's [path] module (POSIX flavour)

    [getDestinationPath] calls [dirname], [extname] and [basename] of Node's
    [path]; they are modelled here after their documented behaviour: the
    last portion of a path is what follows its last separator, trailing
    separators being ignored. All three scan the path from its end, so they
    work on the reversed list of characters. *)

Definition chars (s : string) : list ascii := String.list_ascii_of_string s.
Definition str (l : list ascii) : string := String.string_of_list_ascii l.

Definition isSlash (c : ascii) : bool := Ascii.eqb c "/".
Definition isDot (c : ascii) : bool := Ascii.eqb c ".".

(** The backward loop of [dirname] over the indices [length-1 .. 1]:
    [matchedSlash] holds while only separators were seen; the result is the
    (reversed) part of the path between index 1 and the separator found. *)
Fixpoint dirnameEnd (r : list ascii) (matchedSlash : bool) : option (list ascii) :=
  match r with
  | [] => None
  | c :: r' =>
      if isSlash c then
        if matchedSlash then dirnameEnd r' true else Some r'
      else dirnameEnd r' false
  end.

Definition dirname (path : string) : string :=
  match path with
  | EmptyString => "."
  | String c0 rest =>
      let hasRoot := isSlash c0 in
      match dirnameEnd (rev (chars rest)) true with
      | None => if hasRoot then "/" else "."
      | Some r' =>
          if hasRoot && bool_decide (r' = []) then "//"
          else String c0 (str (rev r'))
      end
  end.

Fixpoint dropSlashes (r : list ascii) : list ascii :=
  match r with
  | [] => []
  | c :: r' => if isSlash c then dropSlashes r' else r
  end.

Fixpoint takePortion (r : list ascii) : list ascii :=
  match r with
  | [] => []
  | c :: r' => if isSlash c then [] else c :: takePortion r'
  end.

(** The last portion of [path], reversed. *)
Definition lastPortionRev (path : string) : list ascii :=
  takePortion (dropSlashes (rev (chars path))).

(** Splits a reversed portion at its last dot: the characters after the
    dot and the characters before it (both still reversed). *)
Fixpoint splitExt (rp : list ascii) : option (list ascii * list ascii) :=
  match rp with
  | [] => None
  | c :: rp' =>
      if isDot c then Some ([], rp')
      else match splitExt rp' with
           | Some (e, b) => Some (c :: e, b)
           | None => None
           end
  end.

(** [extname]: from the last dot of the last portion to its end; empty when
    there is no dot, when the only dot is the first character of the
    portion, and for the portion [..]. *)
Definition extname (path : string) : string :=
  let rp := lastPortionRev path in
  match splitExt rp with
  | None => ""
  | Some (e, before) =>
      if bool_decide (before = []) || bool_decide (str rp = "..") then ""
      else String "." (str (rev e))
  end.

(** [basename(path, ext)]: the last portion, without [ext] when the portion
    ends with it and is more than it. *)
Definition basename (path ext : string) : string :=
  let b := str (rev (lastPortionRev path)) in
  if String.eqb ext path then ""
  else if negb (String.eqb ext "") && endsWith b ext && negb (String.eqb b ext)
  then String.substring 0 (String.length b - String.length ext) b
  else b.

Definition getDestinationPath (filePath : string) (selectedLanguage : option string)
  : result string :=
  let dirName := dirname filePath in
  let extName := extname filePath in
  let baseName := basename filePath extName in
  match selectedLanguage with
  | None => Throw TypeError
  | Some l =>
      let l := toLowerCase l in
      if String.eqb l "typescript" then Ok (dirName +:+ "/" +:+ baseName +:+ ".ts")
      else if String.eqb l "javascript" then Ok (dirName +:+ "/" +:+ baseName +:+ ".js")
      else if String.eqb l "coffeescript" then Ok (dirName +:+ "/" +:+ baseName +:+ ".coffee")
      else Throw UnsupportedLanguage
  end.

(** ** Dependencies *)

(** An element of the arrays built by [getDependencies]: a package name, or
    a whole array of names where the code pushes the result of [map]. *)
Inductive entry : Type :=
  | Str (s : string)
  | Arr (l : list string).

(** [String(e)], the key [Array.prototype.sort] compares when it is given
    no comparator. *)
Definition toString (e : entry) : string :=
  match e with
  | Str s => s
  | Arr l => join l
  end.

(** [array.sort()]: elements are ordered by the code units of their string
    forms; the sort is stable, which fixes the result: every element is
    placed before the first element that is not smaller. *)
Fixpoint insertSorted (x : entry) (l : list entry) : list entry :=
  match l with
  | [] => [x]
  | y :: l' =>
      if String.leb (toString x) (toString y) then x :: y :: l'
      else y :: insertSorted x l'
  end.

Fixpoint sort (l : list entry) : list entry :=
  match l with
  | [] => []
  | x :: l' => insertSorted x (sort l')
  end.

(** [array.push(...items)] *)
Definition push (l items : list entry) : list entry := l ++ items.

(** The array [devDependencies] as it stands before the final [sort()]. *)
Definition devDependenciesPushed (props : Props) : list entry :=
  let devDependencies :=
    [Str "husky"; Str "lint-staged"; Str "jsonlint"; Str "npm-run-all";
     Str "prettierx"; Str "source-map-explorer"; Str "stylelint"] in
  let devDependencies :=
    if strictEq (bundler props) "webpack" then
      let d := push devDependencies
                 [Str "sass-loader"; Str "style-loader"; Str "css-loader";
                  Str "webpack-cli"; Str "webpack"] in
      if strictEq (language props) "coffeescript"
      then push d [Str "coffee-loader"] else d
    else if strictEq (bundler props) "rollup" then
      let d := push devDependencies
                 [Str "rollup"; Str "@rollup/plugin-babel";
                  Str "@rollup/plugin-commonjs"; Str "@rollup/plugin-json";
                  Str "@rollup/plugin-node-resolve"; Str "rollup-plugin-scss";
                  Str "rollup-plugin-terser"] in
      let d := if strictEq (language props) "coffeescript"
               then push d [Str "rollup-plugin-coffee-script"] else d in
      if strictEq (language props) "typescript"
      then push d [Str "@rollup/plugin-typescript"] else d
    else devDependencies in
  let devDependencies :=
    match additionalDependencies props with
    | Some (a :: l) => push devDependencies [Arr (a :: l)]
    | _ => devDependencies
    end in
  let devDependencies :=
    if strictEq (language props) "coffeescript" then
      push devDependencies [Str "coffeelint@2"; Str "coffeescript@2"]
    else if strictEq (language props) "javascript" then
      let d := push devDependencies
                 [Str "@babel/core"; Str "@babel/eslint-parser";
                  Str "@babel/plugin-proposal-export-namespace-from";
                  Str "@babel/preset-env"; Str "core-js@3";
                  Str "eslint-plugin-json"; Str "eslint-plugin-node";
                  Str "eslint";
                  Str ("eslint-config-" +:+ interpolate (eslintConfig props))] in
      let d := if strictEq (bundler props) "webpack"
               then push d [Str "babel-loader"] else d in
      match babelPresets props with
      | Some (p :: l) => push d [Arr (p :: l)]
      | _ => d
      end
    else if strictEq (language props) "typescript" then
      let d := push devDependencies
                 [Str "@babel/core"; Str "@babel/eslint-parser";
                  Str "@babel/plugin-proposal-export-namespace-from";
                  Str "@babel/preset-env"; Str "@types/atom"; Str "@types/node";
                  Str "@typescript-eslint/eslint-plugin";
                  Str "@typescript-eslint/parser"; Str "core-js@3"; Str "eslint";
                  Str ("eslint-config-" +:+ interpolate (eslintConfig props));
                  Str "eslint-plugin-json"; Str "tslib"; Str "typescript"] in
      if strictEq (bundler props) "webpack" then push d [Str "ts-loader"] else d
    else devDependencies in
  if includes (features props) "styles" then
    push devDependencies
      [Str "stylelint";
       Str ("stylelint-config-" +:+ interpolate (stylelintConfig props))]
  else devDependencies.

Definition getDependencies (props : Props) : list entry * list entry :=
  let dependencies : list entry := [] in
  (sort dependencies, sort (devDependenciesPushed props)).

(** ** Activation hooks *)

(** The callback of the [map] in [getActivationHooks]. A hook that matches no
    [case] yields [undefined]; [.endsWith] on a missing answer is a
    [TypeError]. *)
Definition activationHook (props : Props) (hook : string) : result (option string) :=
  if String.eqb hook "core:loaded-shell-environment" then Ok (Some hook)
  else if String.eqb hook "root-scope-used" then
    match rootScopeUsed props with
    | None => Throw TypeError
    | Some r =>
        Ok (Some (if endsWith r ":root-scope-used" then r
                  else r +:+ ":root-scope-used"))
    end
  else if String.eqb hook "grammar-used" then
    match grammarUsed props with
    | None => Throw TypeError
    | Some g =>
        Ok (Some (if endsWith g ":root-scope-used" then g
                  else g +:+ ":grammar-used"))
    end
  else Ok None.

Definition getActivationHooks (props : Props) : result (list (option string)) :=
  match activationHooks props with
  | None => Throw TypeError
  | Some hooks => mapM (activationHook props) hooks
  end.

(** ** Scripts *)

(** A double-quoted word of a shell command. *)
Definition quoted (s : string) : string :=
  let q := String (ascii_of_N 34) EmptyString in q +:+ s +:+ q.

Definition getWatchScript (props : Props) : result string :=
  if negb (includes (features props) "code") then Ok ("echo " +:+ quoted "Nothing to watch")
  else if strictEq (bundler props) "webpack" then Ok "webpack --watch --mode none"
  else if strictEq (bundler props) "rollup" then Ok "rollup --watch --config"
  else Throw (UnsupportedBundler (bundler props)).

Definition getBuildScript (props : Props) : result string :=
  if negb (includes (features props) "code") then Ok ("echo " +:+ quoted "Nothing to build")
  else if strictEq (bundler props) "webpack" then Ok "webpack --mode production"
  else if strictEq (bundler props) "rollup" then Ok "rollup --config"
  else Throw (UnsupportedBundler (bundler props)).

(** ** Formatter options *)

(** The object returned by [getPrettierConfig]; a key the preset does not
    set is [None]. *)
Record PrettierConfig : Type := {
  arrowParens : option string;
  bracketSpacing : option bool;
  quoteProps : option string;
  semi : option bool;
  singleQuote : option bool;
  tabWidth : option Z;
  trailingComma : option string;
  useTabs : option bool
}.

(** A [switch] without [default]: no matching preset returns [undefined]. *)
Definition getPrettierConfig (eslintConfig : option string) : option PrettierConfig :=
  match eslintConfig with
  | None => None
  | Some preset =>
      if String.eqb preset "airbnb" then
        Some {| arrowParens := Some "always"; bracketSpacing := Some false;
                quoteProps := Some "as-needed"; semi := Some true;
                singleQuote := Some true; tabWidth := Some 2;
                trailingComma := Some "all"; useTabs := Some false |}
      else if String.eqb preset "google" then
        Some {| arrowParens := Some "always"; bracketSpacing := Some false;
                quoteProps := Some "consistent"; semi := Some false;
                singleQuote := Some true; tabWidth := Some 2;
                trailingComma := None; useTabs := Some false |}
      else if String.eqb preset "idiomatic" then
        Some {| arrowParens := Some "always"; bracketSpacing := Some true;
                quoteProps := None; semi := None;
                singleQuote := Some true; tabWidth := Some 2;
                trailingComma := None; useTabs := Some false |}
      else if String.eqb preset "standard" then
        Some {| arrowParens := None; bracketSpacing := Some false;
                quoteProps := None; semi := Some false;
                singleQuote := Some true; tabWidth := Some 2;
                trailingComma := None; useTabs := Some false |}
      else if String.eqb preset "semi" then
        Some {| arrowParens := None; bracketSpacing := Some false;
                quoteProps := None; semi := Some true;
                singleQuote := Some true; tabWidth := Some 2;
                trailingComma := None; useTabs := Some false |}
      else if String.eqb preset "xo" then
        Some {| arrowParens := Some "as-needed"; bracketSpacing := Some false;
                quoteProps := None; semi := Some true;
                singleQuote := Some false; tabWidth := Some 2;
                trailingComma := None; useTabs := Some true |}
      else None
  end.

(** ** Lint-staged tasks *)

(** The [switch] on [props.language] of [getLintStaged]: [languageExt] stays
    [undefined] in the [default] case. *)
Definition languageExt (props : Props) : option string :=
  if strictEq (language props) "coffeescript" then Some "coffee"
  else if strictEq (language props) "javascript" then Some "js"
  else if strictEq (language props) "typescript" then Some "ts"
  else None.

Definition getLintStaged (props : Props) : gmap string string :=
  let lintStagedTasks : gmap string string :=
    {[ "*.json" := "jsonlint --quiet"; "*.{ts,md,yml}" := "prettierx --write" ]} in
  let lintStagedTasks :=
    if includes (features props) "code" then
      <[ "*." +:+ interpolate (languageExt props) :=
           if strictEq (language props) "coffeescript" then "coffeelint ./src"
           else "eslint --cache --fix" ]> lintStagedTasks
    else lintStagedTasks in
  if includes (features props) "styles" then
    <[ "*.(c|le)ss" := "stylelint --fix" ]> lintStagedTasks
  else lintStagedTasks.

(** ** The manifest *)

(** [cond && './lib/main']: [false] or the entry point. *)
Inductive mainEntry : Type :=
  | NoMain
  | Main (path : string).

(** [cond ? props.x : []] for an answer [x] that is a string: the answer as
    it is, possibly [undefined], or the empty array. *)
Inductive openers : Type :=
  | URIs (answer : option string)
  | NoOpeners.

Module Manifest.

Record Scripts : Type := {
  analyze : string;
  build : string;
  dev : string;
  lint_code : string;
  lint_styles : string;
  lint : string;
  postinstall : string;
  prepublishOnly : string;
  start : string;
  test : string
}.

Record t : Type := {
  name : string;
  version : string;
  description : string;
  license : string;
  private : bool;
  main : mainEntry;
  scripts : Scripts;
  keywords : list string;
  repository : gmap string string;
  homepage : string;
  bugs : gmap string string;
  engines : gmap string string;
  activationCommands : gmap string (list (option string));
  activationHooks : list (option string);
  workspaceOpeners : openers;
  package_deps : option (list string);
  dependencies : gmap string string;
  devDependencies : gmap string string;
  lint_staged : gmap string string
}.

End Manifest.

(** The throwing calls of [composeManifest] in the order JavaScript evaluates
    them: [getLanguageExtension] for [fileExtension], then, inside the object
    literal, [getBuildScript], [getWatchScript] and [getActivationHooks]. *)
Definition composeManifest (props : Props) : result Manifest.t :=
  let code := includes (features props) "code" in
  fileExtension ←! (if code then getLanguageExtension (language props) else Ok "") ;;
  buildScript ←! getBuildScript props ;;
  watchScript ←! getWatchScript props ;;
  hooks ←! (if code then getActivationHooks props else Ok []) ;;
  Ok {|
    Manifest.name := name props;
    Manifest.version := "0.0.0";
    Manifest.description := description props;
    Manifest.license := license props;
    Manifest.private := private props;
    Manifest.main := if code then Main "./lib/main" else NoMain;
    Manifest.scripts := {|
      Manifest.analyze :=
        if code then "source-map-explorer lib/**/*.js"
        else "echo " +:+ quoted "Nothing to analyze";
      Manifest.build := buildScript;
      Manifest.dev := "npm run start";
      Manifest.lint_code :=
        if code then
          if strictEq (language props) "coffeescript" then "coffeelint ./src"
          else "eslint --ignore-path .gitignore --no-error-on-unmatched-pattern ./src/**/*."
               +:+ fileExtension
        else "echo " +:+ quoted "Nothing to lint";
      Manifest.lint_styles :=
        if includes (features props) "styles"
        then "stylelint --allow-empty-input styles/*.{css,less}"
        else "echo " +:+ quoted "Nothing to lint";
      Manifest.lint := "npm-run-all --parallel lint:*";
      Manifest.postinstall := "husky install";
      Manifest.prepublishOnly := "npm run build";
      Manifest.start := watchScript;
      Manifest.test :=
        if code then "echo 'Error: no test specified' && exit 1"
        else "echo " +:+ quoted "Nothing to test"
    |};
    Manifest.keywords := [];
    Manifest.repository :=
      {[ "type" := "git";
         "url" := "https://github.com/" +:+ author props +:+ "/" +:+ repositoryName props ]};
    Manifest.homepage := "https://atom.io/packages/" +:+ name props;
    Manifest.bugs :=
      {[ "url" := "https://github.com/" +:+ author props +:+ "/"
                  +:+ repositoryName props +:+ "/issues" ]};
    Manifest.engines := {[ "atom" := ">=1.0.0 <2.0.0" ]};
    Manifest.activationCommands :=
      {[ "atom-workspace" :=
           [ if code && default false (activationCommands props)
             then Some (name props +:+ ":hello-world")
             else None ] ]};
    Manifest.activationHooks := hooks;
    Manifest.workspaceOpeners :=
      if code then URIs (workspaceOpenerURIs props) else NoOpeners;
    Manifest.package_deps := if code then atomDependencies props else Some [];
    Manifest.dependencies := ∅;
    Manifest.devDependencies := ∅;
    Manifest.lint_staged := getLintStaged props
  |}.

(** ** Babel configuration *)

Module Babel.

(** The options object given to [@babel/preset-env]. *)
Record envOptions : Type := {
  targets : gmap string string;
  corejs : string;
  useBuiltIns : string
}.

(** An element of [presets]: a pair of a name and its options, or a name. *)
Inductive preset : Type :=
  | WithOptions (name : string) (options : envOptions)
  | Plain (name : string).

Record t : Type := {
  plugins : list string;
  presets : list preset
}.

End Babel.

(** [props.babelPresets?.length ? props.babelPresets : []], then the spread
    of that array behind the configured [@babel/preset-env]. *)
Definition composeBabel (props : Props) : Babel.t :=
  let selected :=
    match babelPresets props with
    | Some (p :: l) => p :: l
    | _ => []
    end in
  {| Babel.plugins := ["@babel/plugin-proposal-export-namespace-from"];
     Babel.presets :=
       Babel.WithOptions "@babel/preset-env"
         {| Babel.targets := {[ "electron" := "2.0.0" ]};
            Babel.corejs := "3";
            Babel.useBuiltIns := "entry" |}
       :: (Babel.Plain <$> selected) |}.

(** ** Template lookup *)

(** What [getTemplatePath] reads from its environment: the package root
    found by [pkg-dir], Node's [path.resolve] and [path.join], and the
    outcome of the [fs.access] probe behind [fileExists], which turns a
    failed probe into [false]. *)
Record Env : Type := {
  pkgDir : string;
  resolve : list string → string;
  pathJoin : list string → string;
  fileExists : string → bool
}.

(** The awaited steps of [getTemplatePath] in their order; a rejected
    promise is a [Throw]. *)
Definition getTemplatePath (env : Env) (filePath selectedLanguage : string)
  : result string :=
  let rootDir := pkgDir env in
  let languagePath :=
    resolve env [rootDir; "generators/app/templates"; selectedLanguage; filePath] in
  let sharedPath :=
    resolve env [rootDir; "generators/app/templates"; "shared"; filePath] in
  if fileExists env languagePath then Ok (pathJoin env [selectedLanguage; filePath])
  else if fileExists env sharedPath then Ok (pathJoin env [sharedPath; filePath])
  else Throw (Error ("No template file found for " +:+ filePath)).

(** ** The generator: answers completed after the prompts

    The callback of the prompts in the generator derives further
    properties from the answers before any file is written. *)

(** [s.startsWith(t)] *)
Definition startsWith (s t : string) : bool := String.prefix t s.

(** [props.repositoryName]: the name, prefixed with [atom-] unless it has
    the prefix. *)
Definition repositoryNameFor (name : string) : string :=
  if startsWith name "atom-" then name else "atom-" +:+ name.

Definition newline : ascii := ascii_of_N 10.

Definition isNewline (c : ascii) : bool := Ascii.eqb c newline.

(** What a run of [n] line feeds becomes under
    [replace(/\n{3,}/g, '\n\n')]: two line feeds when the run has three or
    more, the run itself otherwise. *)
Definition flushNewlines (n : nat) : list ascii :=
  replicate (if (3 <=? n)%nat then 2%nat else n) newline.

(** The global replacement, scanning left to right; [n] counts the line
    feeds of the run being read. The pattern is greedy, so a run is
    replaced as a whole. *)
Fixpoint collapseFrom (n : nat) (l : list ascii) : list ascii :=
  match l with
  | [] => flushNewlines n
  | c :: l' =>
      if isNewline c then collapseFrom (S n) l'
      else flushNewlines n ++ c :: collapseFrom 0 l'
  end.

(** [props.licenseText]: [licenseText.replace(/\n{3,}/g, '\n\n')]. *)
Definition collapseBlankLines (licenseText : string) : string :=
  str (collapseFrom 0 (chars licenseText)).

(** [s.split(',')] *)
Fixpoint split (s : string) : list string :=
  match s with
  | EmptyString => [EmptyString]
  | String c s' =>
      if Ascii.eqb c "," then EmptyString :: split s'
      else match split s' with
           | h :: t => String c h :: t
           | [] => [String c EmptyString]
           end
  end.

(** [props.atomDependencies] after the callback: the answer split at
    commas when there is one. The [map] with [trim] that follows in the
    source builds a new array that is dropped, so the elements stay as
    [split] left them. *)
Definition splitAtomDependencies (answer : option string) : option (list string) :=
  split <$> answer.

(** [\d] *)
Definition isDigit (c : ascii) : bool :=
  let n := N_of_ascii c in ((48 <=? n) && (n <=? 57))%N.

(** The longest run of digits at the head of [l]: its length and what
    follows it. *)
Fixpoint skipDigits (l : list ascii) : nat * list ascii :=
  match l with
  | [] => (0%nat, [])
  | c :: l' =>
      if isDigit c then let '(n, rest) := skipDigits l' in (S n, rest)
      else (0%nat, l)
  end.

(** [/^UA-\d{4,}-\d{1,}/.test(trackingID)]. A digit is never a hyphen, so
    the only way to match is with the whole run of digits; the pattern has
    no end anchor. *)
Definition trackingIdMatches (trackingID : string) : bool :=
  match chars trackingID with
  | c1 :: c2 :: c3 :: rest =>
      Ascii.eqb c1 "U" && Ascii.eqb c2 "A" && Ascii.eqb c3 "-" &&
      (let '(n, rest') := skipDigits rest in
       (4 <=? n)%nat &&
       match rest' with
       | h :: d :: _ => Ascii.eqb h "-" && isDigit d
       | _ => false
       end)
  | _ => false
  end.

(** What a [validate] function of a prompt returns: [true], or the message
    shown to the user. *)
Inductive validation : Type :=
  | Valid
  | Invalid (message : string).

Definition validateTrackingId (trackingID : string) : validation :=
  if trackingIdMatches trackingID then Valid
  else Invalid "Unsupported tracking ID format (should be UA-XXXX-Y)".

(** ** The generator: installing the dependencies *)




(** ** Vocabulary of the properties *)

(** The order of [sort()] on entries: code-unit lexical order of the string
    forms, upper case before lower case. *)
Definition entryLe (x y : entry) : Prop :=
  String.leb (toString x) (toString y) = true.

(** An entry that is a package name, not a nested array. *)
Definition isStr (e : entry) : Prop :=
  match e with
  | Str _ => True
  | Arr _ => False
  end.

(** A dependency list that is flat, non-decreasing and without repeats. *)
Definition uniqueSorted (l : list entry) : Prop :=
  Forall isStr l ∧ Sorted entryLe l ∧ NoDup l.

(** Answers for which no array is pushed as a single element: no additional
    dependencies and, for JavaScript, no Babel presets. *)
Definition nothingNested (props : Props) : Prop :=
  (additionalDependencies props = None ∨ additionalDependencies props = Some []) ∧
  (language props = Some "javascript" →
   babelPresets props = None ∨ babelPresets props = Some []).

(** The normalisation of a hook value as the specification words it: [s]
    is kept when it already ends with [suffix], otherwise [suffix] is
    appended. *)
Definition withSuffix (suffix s : string) : string :=
  if endsWith s suffix then s else s +:+ suffix.

(** The answers for which script composition fails. *)
Definition unsupportedBundler (props : Props) : Prop :=
  includes (features props) "code" = true ∧
  bundler props ≠ Some "rollup" ∧ bundler props ≠ Some "webpack".

(** The six keys of the [switch] in [getPrettierConfig]. *)
Definition prettierPresets : list (option string) :=
  [Some "airbnb"; Some "google"; Some "idiomatic"; Some "standard"; Some "semi";
   Some "xo"].

(** The three languages of the prompt, as values of [props.language], and
    as the strings the language helpers compare with. *)
Definition knownLanguages : list (option string) :=
  [Some "coffeescript"; Some "javascript"; Some "typescript"].

Definition languageNames : list string := ["typescript"; "javascript"; "coffeescript"].

(** The two tasks [getLintStaged] starts from. *)
Definition fixedTasks : gmap string string :=
  {[ "*.json" := "jsonlint --quiet"; "*.{ts,md,yml}" := "prettierx --write" ]}.

(** The tasks of a package with JavaScript code and styles. *)
Definition javascriptStylesTasks : gmap string string :=
  {[ "*.json" := "jsonlint --quiet";
     "*.{ts,md,yml}" := "prettierx --write";
     "*.js" := "eslint --cache --fix";
     "*.(c|le)ss" := "stylelint --fix" ]}.

(** [c] occurs in [s]. *)
Definition hasChar (c : ascii) (s : string) : Prop := c ∈ chars s.

(** The path [dir/stem.ext]. *)
Definition pathOf (dir stem ext : string) : string :=
  dir +:+ "/" +:+ stem +:+ "." +:+ ext.

(** The portion [stem.ext] of a path, reversed. *)
Definition portionRev (stem ext : string) : list ascii :=
  rev (chars ext) ++ "."%char :: rev (chars stem).

(** Case analysis on every test of the answers left in the goal. *)
Ltac split_answers :=
  repeat match goal with
         | |- context [strictEq ?v ?s] => destruct (strictEq v s) eqn:?
         | |- context [includes ?l ?x] => destruct (includes l x) eqn:?
         | |- context [match ?o with Some _ => _ | None => _ end] =>
             destruct o as [[|? ?]|] eqn:?
         end.

(** ** Sample answers *)

(** A TypeScript package whose root-scope hook is answered with [foo]. *)
Definition fooProps : Props := {|
  name := "demo"; description := "A demo package"; author := "someone";
  license := "MIT"; private := false; repositoryName := "atom-demo";
  features := ["code"]; language := Some "typescript"; bundler := Some "rollup";
  activationCommands := Some true;
  activationHooks := Some ["core:loaded-shell-environment"; "root-scope-used"];
  rootScopeUsed := Some "foo"; grammarUsed := None;
  workspaceOpenerURIs := None; atomDependencies := None;
  additionalDependencies := None; babelPresets := None;
  eslintConfig := Some "standard"; stylelintConfig := None
|}.

(** A JavaScript package with the grammar hook answered with [g]. *)
Definition grammarProps (g : string) : Props := {|
  name := "demo"; description := "A demo package"; author := "someone";
  license := "MIT"; private := false; repositoryName := "atom-demo";
  features := ["code"]; language := Some "javascript"; bundler := Some "webpack";
  activationCommands := Some false;
  activationHooks := Some ["grammar-used"];
  rootScopeUsed := None; grammarUsed := Some g;
  workspaceOpenerURIs := None; atomDependencies := None;
  additionalDependencies := None; babelPresets := None;
  eslintConfig := Some "standard"; stylelintConfig := None
|}.

(** Answers with a bundler that is not on offer. *)
Definition gruntProps : Props := {|
  name := "demo"; description := "A demo package"; author := "someone";
  license := "MIT"; private := false; repositoryName := "atom-demo";
  features := ["code"]; language := Some "javascript"; bundler := Some "grunt";
  activationCommands := Some false; activationHooks := Some [];
  rootScopeUsed := None; grammarUsed := None;
  workspaceOpenerURIs := None; atomDependencies := None;
  additionalDependencies := None; babelPresets := None;
  eslintConfig := Some "standard"; stylelintConfig := None
|}.

(** Answers with a language that is not on offer. *)
Definition pythonProps : Props := {|
  name := "demo"; description := "A demo package"; author := "someone";
  license := "MIT"; private := false; repositoryName := "atom-demo";
  features := ["code"]; language := Some "python"; bundler := Some "rollup";
  activationCommands := Some false; activationHooks := Some [];
  rootScopeUsed := None; grammarUsed := None;
  workspaceOpenerURIs := None; atomDependencies := None;
  additionalDependencies := None; babelPresets := None;
  eslintConfig := Some "standard"; stylelintConfig := None
|}.

(** A package of styles only: every prompt guarded by [code] was skipped. *)
Definition stylesOnlyProps : Props := {|
  name := "demo"; description := "A demo package"; author := "someone";
  license := "MIT"; private := false; repositoryName := "atom-demo";
  features := ["styles"]; language := None; bundler := None;
  activationCommands := None; activationHooks := None;
  rootScopeUsed := None; grammarUsed := None;
  workspaceOpenerURIs := None; atomDependencies := None;
  additionalDependencies := None; babelPresets := None;
  eslintConfig := None; stylelintConfig := Some "standard"
|}.

(** JavaScript code and styles, bundled by webpack, [standard] presets. *)
Definition scenarioProps : Props := {|
  name := "demo"; description := "A demo package"; author := "someone";
  license := "MIT"; private := false; repositoryName := "atom-demo";
  features := ["code"; "styles"];
  language := Some "javascript"; bundler := Some "webpack";
  activationCommands := Some true; activationHooks := Some [];
  rootScopeUsed := None; grammarUsed := None;
  workspaceOpenerURIs := None; atomDependencies := None;
  additionalDependencies := None; babelPresets := None;
  eslintConfig := Some "standard"; stylelintConfig := Some "standard"
|}.

(** The scenario with the metrics package and a Babel preset added. *)
Definition metricsProps : Props := {|
  name := "demo"; description := "A demo package"; author := "someone";
  license := "MIT"; private := false; repositoryName := "atom-demo";
  features := ["code"; "styles"];
  language := Some "javascript"; bundler := Some "webpack";
  activationCommands := Some true; activationHooks := Some [];
  rootScopeUsed := None; grammarUsed := None;
  workspaceOpenerURIs := None; atomDependencies := None;
  additionalDependencies := Some ["@atxm/metrics"; "@atxm/developer-console"];
  babelPresets := Some ["@babel/preset-react"];
  eslintConfig := Some "standard"; stylelintConfig := Some "standard"
|}.

(** ** Vocabulary and samples of the further properties *)

Definition hookNames : list string :=
  ["core:loaded-shell-environment"; "root-scope-used"; "grammar-used"].

Definition unknownHookProps : Props := {|
  name := "demo"; description := "A demo package"; author := "someone";
  license := "MIT"; private := false; repositoryName := "atom-demo";
  features := ["code"]; language := Some "typescript"; bundler := Some "rollup";
  activationCommands := Some true;
  activationHooks := Some ["core:loaded-shell-environment"; "language-used"];
  rootScopeUsed := None; grammarUsed := None;
  workspaceOpenerURIs := None; atomDependencies := None;
  additionalDependencies := None; babelPresets := None;
  eslintConfig := Some "standard"; stylelintConfig := None
|}.

Definition mixedCaseProps : Props := {|
  name := "demo"; description := "A demo package"; author := "someone";
  license := "MIT"; private := false; repositoryName := "atom-demo";
  features := ["code"]; language := Some "CoffeeScript"; bundler := Some "rollup";
  activationCommands := Some false; activationHooks := Some [];
  rootScopeUsed := None; grammarUsed := None;
  workspaceOpenerURIs := None; atomDependencies := None;
  additionalDependencies := None; babelPresets := None;
  eslintConfig := None; stylelintConfig := None
|}.

Definition baselineDependencies : list string :=
  ["husky"; "lint-staged"; "jsonlint"; "npm-run-all"; "prettierx";
   "source-map-explorer"; "stylelint"].

(** The contributions of the five blocks of [getDependencies], one list per
    block: the initial array, the [if] on the bundler, the additional
    dependencies, the [switch] on the language, the styles. *)
Definition baselinePart : list entry := Str <$> baselineDependencies.

Definition bundlerPart (props : Props) : list entry :=
  if strictEq (bundler props) "webpack" then
    [Str "sass-loader"; Str "style-loader"; Str "css-loader"; Str "webpack-cli";
     Str "webpack"]
    ++ (if strictEq (language props) "coffeescript" then [Str "coffee-loader"] else [])
  else if strictEq (bundler props) "rollup" then
    [Str "rollup"; Str "@rollup/plugin-babel"; Str "@rollup/plugin-commonjs";
     Str "@rollup/plugin-json"; Str "@rollup/plugin-node-resolve";
     Str "rollup-plugin-scss"; Str "rollup-plugin-terser"]
    ++ (if strictEq (language props) "coffeescript"
        then [Str "rollup-plugin-coffee-script"] else [])
    ++ (if strictEq (language props) "typescript"
        then [Str "@rollup/plugin-typescript"] else [])
  else [].

Definition additionalPart (props : Props) : list entry :=
  match additionalDependencies props with
  | Some (a :: l) => [Arr (a :: l)]
  | _ => []
  end.

Definition languagePart (props : Props) : list entry :=
  if strictEq (language props) "coffeescript" then
    [Str "coffeelint@2"; Str "coffeescript@2"]
  else if strictEq (language props) "javascript" then
    [Str "@babel/core"; Str "@babel/eslint-parser";
     Str "@babel/plugin-proposal-export-namespace-from";
     Str "@babel/preset-env"; Str "core-js@3"; Str "eslint-plugin-json";
     Str "eslint-plugin-node"; Str "eslint";
     Str ("eslint-config-" +:+ interpolate (eslintConfig props))]
    ++ (if strictEq (bundler props) "webpack" then [Str "babel-loader"] else [])
    ++ match babelPresets props with
       | Some (p :: l) => [Arr (p :: l)]
       | _ => []
       end
  else if strictEq (language props) "typescript" then
    [Str "@babel/core"; Str "@babel/eslint-parser";
     Str "@babel/plugin-proposal-export-namespace-from";
     Str "@babel/preset-env"; Str "@types/atom"; Str "@types/node";
     Str "@typescript-eslint/eslint-plugin"; Str "@typescript-eslint/parser";
     Str "core-js@3"; Str "eslint";
     Str ("eslint-config-" +:+ interpolate (eslintConfig props));
     Str "eslint-plugin-json"; Str "tslib"; Str "typescript"]
    ++ (if strictEq (bundler props) "webpack" then [Str "ts-loader"] else [])
  else [].

Definition stylesPart (props : Props) : list entry :=
  if includes (features props) "styles" then
    [Str "stylelint";
     Str ("stylelint-config-" +:+ interpolate (stylelintConfig props))]
  else [].

(** Membership in a list, as a disjunction that computes. *)
Fixpoint memb (x : entry) (l : list entry) : Prop :=
  match l with
  | [] => False
  | y :: l' => x = y ∨ memb x l'
  end.

(** Case analysis on the tests of the language and the bundler, keeping
    the consistent cases, then on the other answers tested in the goal. *)
Ltac split_props :=
  unfold strictEq;
  repeat (case_bool_decide; try congruence);
  repeat match goal with
         | |- context [includes ?l ?x] => destruct (includes l x) eqn:?
         | |- context [match ?o with Some _ => _ | None => _ end] =>
             destruct o as [[|? ?]|] eqn:?
         end.

Ltac find_member := first [ reflexivity | left; reflexivity | right; find_member ].

(** Decides [memb x l ↔ Q] for a list [l] whose spine is known. *)
Ltac decide_member :=
  unfold push; cbn [memb app fmap list_fmap];
  split;
  [ intros Hin; decompose [or] Hin;
    first [ discriminate | done | congruence | (split; congruence) | tauto ]
  | intros Hyp; first [ find_member | by (exfalso; intuition congruence) ] ].

(** Proves [memb x part ↔ Q] for one of the five parts. *)
Ltac part_member :=
  unfold baselinePart, baselineDependencies, bundlerPart, additionalPart,
    languagePart, stylesPart;
  split_props; decide_member.

(** An installation where only the shared template of [src/config.ejs]
    exists; paths are resolved and joined by putting [/] between the
    segments. *)
Definition sharedOnlyEnv : Env := {|
  pkgDir := "/pkg";
  resolve := String.concat "/";
  pathJoin := String.concat "/";
  fileExists := λ p,
    String.eqb p "/pkg/generators/app/templates/shared/src/config.ejs"
|}.

(** No run of three line feeds from a position where [k] line feeds were
    just read. *)
Fixpoint noTripleFrom (k : nat) (l : list ascii) : bool :=
  match l with
  | [] => true
  | c :: l' =>
      if isNewline c then (if (2 <=? k)%nat then false else noTripleFrom (S k) l')
      else noTripleFrom 0 l'
  end.

(** * Properties *)

(** ** The embedding on concrete inputs *)

(** The examples of Node's documentation of [path]. *)
Example path_documentation :
  dirname "/foo/bar/baz/asdf/quux" = "/foo/bar/baz/asdf" ∧
  extname "index.html" = ".html" ∧
  extname "index.coffee.md" = ".md" ∧
  extname "index." = "." ∧
  extname "index" = "" ∧
  extname ".index" = "" ∧
  extname ".index.md" = ".md" ∧
  basename "/foo/bar/baz/asdf/quux.html" "" = "quux.html" ∧
  basename "/foo/bar/baz/asdf/quux.html" ".html" = "quux".
Proof. repeat split; reflexivity. Qed.

(** The destination paths the generator asks for, a path without directory,
    a missing language and an unknown one. *)
Example getDestinationPath_samples :
  getDestinationPath "src/main.ejs" (Some "typescript") = Ok "src/main.ts" ∧
  getDestinationPath "src/config.ejs" (Some "javascript") = Ok "src/config.js" ∧
  getDestinationPath "src/hello-world.ejs" (Some "coffeescript")
    = Ok "src/hello-world.coffee" ∧
  getDestinationPath "main.ejs" (Some "javascript") = Ok "./main.js" ∧
  getDestinationPath "src/main.ejs" None = Throw TypeError ∧
  getDestinationPath "src/main.ejs" (Some "python")
    = Throw (Error "Unsupported language selected").
Proof. repeat split; reflexivity. Qed.

(** [sort()] compares string forms: upper case first, and an array at the
    place of its elements joined by commas. *)
Example sort_sample :
  sort [Str "b"; Str "B"; Str "a"; Arr ["a"; "c"]; Str "a,b"]
    = [Str "B"; Str "a"; Str "a,b"; Arr ["a"; "c"]; Str "b"].
Proof. reflexivity. Qed.

Example getDependencies_stylesOnly :
  getDependencies stylesOnlyProps
    = ([],
       [Str "husky"; Str "jsonlint"; Str "lint-staged"; Str "npm-run-all";
        Str "prettierx"; Str "source-map-explorer"; Str "stylelint";
        Str "stylelint"; Str "stylelint-config-standard"]).
Proof. reflexivity. Qed.

Example getDependencies_metrics :
  getDependencies metricsProps
    = ([],
       [Arr ["@atxm/metrics"; "@atxm/developer-console"];
        Str "@babel/core"; Str "@babel/eslint-parser";
        Str "@babel/plugin-proposal-export-namespace-from";
        Str "@babel/preset-env"; Arr ["@babel/preset-react"];
        Str "babel-loader"; Str "core-js@3"; Str "css-loader";
        Str "eslint"; Str "eslint-config-standard";
        Str "eslint-plugin-json"; Str "eslint-plugin-node";
        Str "husky"; Str "jsonlint"; Str "lint-staged";
        Str "npm-run-all"; Str "prettierx"; Str "sass-loader";
        Str "source-map-explorer"; Str "style-loader";
        Str "stylelint"; Str "stylelint"; Str "stylelint-config-standard";
        Str "webpack"; Str "webpack-cli"]).
Proof. by vm_compute. Qed.

Example getLintStaged_scenario :
  map_to_list (getLintStaged scenarioProps)
    ≡ₚ [("*.json", "jsonlint --quiet"); ("*.{ts,md,yml}", "prettierx --write");
        ("*.js", "eslint --cache --fix"); ("*.(c|le)ss", "stylelint --fix")].
Proof.
  vm_compute.
  apply perm_swap.
Qed.

(** ** Strings *)

Lemma endsWith_refl (t : string) : endsWith t t = true.
Proof. destruct t; simpl; by rewrite ?String.eqb_refl, ?Ascii.eqb_refl. Qed.

Lemma endsWith_cons (c : ascii) (s t : string) :
  endsWith (String c s) t = if String.eqb (String c s) t then true else endsWith s t.
Proof. reflexivity. Qed.

Lemma string_app_cons (c : ascii) (s t : string) :
  String c s +:+ t = String c (s +:+ t).
Proof. reflexivity. Qed.

Lemma endsWith_app (s t : string) : endsWith (s +:+ t) t = true.
Proof.
  induction s as [|c s IH].
  - apply endsWith_refl.
  - rewrite string_app_cons, endsWith_cons, IH. by destruct (String.eqb _ t).
Qed.

Lemma endsWith_true (s t : string) :
  endsWith s t = true ↔ ∃ p, s = p +:+ t.
Proof.
  split.
  - induction s as [|c s IH]; [|rewrite endsWith_cons].
    + destruct t; [by exists ""|done].
    + destruct (String.eqb_spec (String c s) t) as [<-|_].
      * by exists "".
      * intros [p ->]%IH. by exists (String c p).
  - intros [p ->]. apply endsWith_app.
Qed.

Lemma chars_app (s t : string) : chars (s +:+ t) = chars s ++ chars t.
Proof. induction s as [|c s IH]; simpl; [done|]. by rewrite IH. Qed.

Lemma str_chars (s : string) : str (chars s) = s.
Proof. apply String.string_of_list_ascii_of_string. Qed.

Lemma str_app (l k : list ascii) : str (l ++ k) = str l +:+ str k.
Proof. induction l as [|c l IH]; simpl; [done|]. by rewrite IH. Qed.

Lemma string_app_length (s t : string) :
  String.length (s +:+ t) = (String.length s + String.length t)%nat.
Proof.
  induction s as [|c s IH]; [done|].
  rewrite string_app_cons. simpl. by rewrite IH.
Qed.

Lemma substring_app_l (s t : string) :
  String.substring 0 (String.length s) (s +:+ t) = s.
Proof.
  induction s as [|c s IH].
  - by destruct t.
  - rewrite string_app_cons. simpl. by rewrite IH.
Qed.

(** ** The order of [sort()] *)

Lemma string_leb_trans (a b c : string) :
  String.leb a b = true → String.leb b c = true → String.leb a c = true.
Proof.
  unfold String.leb. revert b c.
  induction a as [|x a IH]; intros [|y b] [|z c]; simpl; try done.
  unfold Ascii.compare.
  destruct (N.compare_spec (N_of_ascii x) (N_of_ascii y)) as [Hxy|Hxy|Hxy];
    destruct (N.compare_spec (N_of_ascii y) (N_of_ascii z)) as [Hyz|Hyz|Hyz];
    try done.
  - rewrite Hxy, Hyz, N.compare_refl. apply IH.
  - intros _ _. rewrite Hxy. by apply N.compare_lt_iff in Hyz as ->.
  - intros _ _. rewrite <- Hyz. by apply N.compare_lt_iff in Hxy as ->.
  - intros _ _.
    assert (N_of_ascii x < N_of_ascii z)%N as Hxz by lia.
    by apply N.compare_lt_iff in Hxz as ->.
Qed.

Lemma string_leb_refl (s : string) : String.leb s s = true.
Proof.
  unfold String.leb. induction s as [|c s IH]; simpl; [done|].
  unfold Ascii.compare. by rewrite N.compare_refl.
Qed.

Lemma entryLe_total (x y : entry) : entryLe x y ∨ entryLe y x.
Proof. apply String.leb_total. Qed.

Lemma entryLe_trans (x y z : entry) : entryLe x y → entryLe y z → entryLe x z.
Proof. apply string_leb_trans. Qed.

Lemma insertSorted_Permutation (x : entry) (l : list entry) :
  Permutation (x :: l) (insertSorted x l).
Proof.
  induction l as [|y l IH]; simpl; [done|].
  destruct (String.leb _ _); [done|].
  rewrite <- IH. apply perm_swap.
Qed.

Lemma sort_Permutation (l : list entry) : Permutation l (sort l).
Proof.
  induction l as [|x l IH]; simpl; [done|].
  rewrite <- insertSorted_Permutation. by constructor.
Qed.

(** Stability: entries with the same string form keep their order. *)
Lemma insertSorted_filter (k : string) (x : entry) (l : list entry) :
  filter (λ e, toString e = k) (insertSorted x l)
    = filter (λ e, toString e = k) (x :: l).
Proof.
  induction l as [|y l IH]; simpl; [done|].
  destruct (String.leb (toString x) (toString y)) eqn:Hxy; [done|].
  rewrite (filter_cons _ y), IH, !filter_cons.
  destruct (decide (toString x = k)) as [Hx|_], (decide (toString y = k)) as [Hy|_];
    try done.
  rewrite Hx, Hy, string_leb_refl in Hxy. done.
Qed.

Lemma sort_stable (k : string) (l : list entry) :
  filter (λ e, toString e = k) (sort l) = filter (λ e, toString e = k) l.
Proof.
  induction l as [|x l IH]; simpl; [done|].
  by rewrite insertSorted_filter, !filter_cons, IH.
Qed.

Lemma insertSorted_StronglySorted (x : entry) (l : list entry) :
  StronglySorted entryLe l → StronglySorted entryLe (insertSorted x l).
Proof.
  induction 1 as [|y l Hl IH Hy]; simpl.
  - repeat constructor.
  - destruct (String.leb (toString x) (toString y)) eqn:Hxy.
    + constructor; [by constructor|].
      constructor; [done|].
      eapply Forall_impl; [exact Hy|].
      intros z Hz. by apply (entryLe_trans x y z).
    + constructor; [done|].
      rewrite <- insertSorted_Permutation. constructor; [|done].
      destruct (entryLe_total x y) as [H|H]; [|done].
      unfold entryLe in H. congruence.
Qed.

Lemma sort_StronglySorted (l : list entry) : StronglySorted entryLe (sort l).
Proof.
  induction l as [|x l IH]; simpl; [constructor|].
  by apply insertSorted_StronglySorted.
Qed.

(** ** Exceptions and [map] *)

Lemma bind_Ok {A B : Type} (r : result A) (k : A → result B) (b : B) :
  bind r k = Ok b ↔ ∃ a, r = Ok a ∧ k a = Ok b.
Proof.
  destruct r as [a|e]; simpl; split.
  - by exists a.
  - by intros (? & [= <-] & ?).
  - done.
  - by intros (? & ? & _).
Qed.

Lemma mapM_Ok_lookup {A B : Type} (f : A → result B) (l : list A) (out : list B)
    (i : nat) (x : A) :
  mapM f l = Ok out → l !! i = Some x →
  ∃ y, f x = Ok y ∧ out !! i = Some y.
Proof.
  revert out i. induction l as [|a l IH]; intros out i Hm Hi; [done|].
  simpl in Hm. apply bind_Ok in Hm as (y & Hy & Hm).
  apply bind_Ok in Hm as (ys & Hys & [= <-]).
  destruct i as [|i]; simpl in *.
  - injection Hi as ->. by exists y.
  - by apply IH.
Qed.

Lemma mapM_total {A B : Type} (f : A → result B) (l : list A) :
  (∀ x, x ∈ l → ∃ y, f x = Ok y) → ∃ out, mapM f l = Ok out.
Proof.
  induction l as [|a l IH]; intros Hf; simpl.
  - by eexists.
  - destruct (Hf a) as [y ->]; [by left|].
    destruct IH as [ys ->]; [intros x Hx; apply Hf; by right|].
    by eexists.
Qed.

(** ** Activation hooks *)

Lemma withSuffix_endsWith (suffix s : string) :
  endsWith (withSuffix suffix s) suffix = true.
Proof.
  unfold withSuffix. destruct (endsWith s suffix) eqn:H; [done|].
  apply endsWith_app.
Qed.

Lemma withSuffix_idempotent (suffix s : string) :
  withSuffix suffix (withSuffix suffix s) = withSuffix suffix s.
Proof. unfold withSuffix at 1. by rewrite withSuffix_endsWith. Qed.

Lemma activationHook_total (props : Props) (hook : string) :
  (hook = "root-scope-used" → is_Some (rootScopeUsed props)) →
  (hook = "grammar-used" → is_Some (grammarUsed props)) →
  ∃ y, activationHook props hook = Ok y.
Proof.
  intros Hr Hg. unfold activationHook.
  destruct (String.eqb_spec hook "core:loaded-shell-environment"); [by eexists|].
  destruct (String.eqb_spec hook "root-scope-used") as [E|_].
  { destruct (Hr E) as [r ->]. by eexists. }
  destruct (String.eqb_spec hook "grammar-used") as [E|_].
  { destruct (Hg E) as [g ->]. by eexists. }
  by eexists.
Qed.

Lemma getActivationHooks_total (props : Props) (hooks : list string) :
  activationHooks props = Some hooks →
  ("root-scope-used" ∈ hooks → is_Some (rootScopeUsed props)) →
  ("grammar-used" ∈ hooks → is_Some (grammarUsed props)) →
  ∃ out, getActivationHooks props = Ok out.
Proof.
  intros Hh Hr Hg. unfold getActivationHooks. rewrite Hh.
  apply mapM_total. intros hook Hin.
  apply activationHook_total; intros ->; auto.
Qed.

(** C8. With the hook [root-scope-used] selected (at any position [i] of the
    selected hooks) and the answers of the selected hooks present,
    [getActivationHooks] returns, and the value emitted at position [i] is
    [rootScopeUsed] normalised to end with [:root-scope-used]: the suffix is
    appended when it is absent, a value that has it is kept, and normalising
    twice is normalising once. *)
Theorem root_scope_used_hook_normalized
    (props : Props) (hooks : list string) (r : string) (i : nat) :
  activationHooks props = Some hooks →
  hooks !! i = Some "root-scope-used" →
  rootScopeUsed props = Some r →
  ("grammar-used" ∈ hooks → is_Some (grammarUsed props)) →
  (∃ out, getActivationHooks props = Ok out ∧
          out !! i = Some (Some (withSuffix ":root-scope-used" r))) ∧
  (endsWith r ":root-scope-used" = false →
     withSuffix ":root-scope-used" r = r +:+ ":root-scope-used") ∧
  (endsWith r ":root-scope-used" = true →
     withSuffix ":root-scope-used" r = r) ∧
  withSuffix ":root-scope-used" (withSuffix ":root-scope-used" r)
    = withSuffix ":root-scope-used" r.
Proof.
  intros Hh Hi Hr Hg. split; [|split; [|split]].
  - assert (is_Some (rootScopeUsed props)) as Hsome by by rewrite Hr.
    destruct (getActivationHooks_total props hooks Hh (λ _, Hsome) Hg) as [out Hout].
    exists out. split; [done|].
    unfold getActivationHooks in Hout. rewrite Hh in Hout.
    destruct (mapM_Ok_lookup _ _ _ _ _ Hout Hi) as (y & Hy & ->).
    unfold activationHook in Hy. simpl in Hy. rewrite Hr in Hy.
    by injection Hy as <-.
  - unfold withSuffix. by intros ->.
  - unfold withSuffix. by intros ->.
  - apply withSuffix_idempotent.
Qed.

Example getActivationHooks_foo :
  getActivationHooks fooProps
    = Ok [Some "core:loaded-shell-environment"; Some "foo:root-scope-used"].
Proof. reflexivity. Qed.

Lemma root_scope_used_hook_normalized_witness :
  (∃ out, getActivationHooks fooProps = Ok out ∧
          out !! 1%nat = Some (Some (withSuffix ":root-scope-used" "foo"))) ∧
  (endsWith "foo" ":root-scope-used" = false →
     withSuffix ":root-scope-used" "foo" = "foo:root-scope-used") ∧
  (endsWith "foo" ":root-scope-used" = true →
     withSuffix ":root-scope-used" "foo" = "foo") ∧
  withSuffix ":root-scope-used" (withSuffix ":root-scope-used" "foo")
    = withSuffix ":root-scope-used" "foo".
Proof.
  apply (root_scope_used_hook_normalized fooProps
           ["core:loaded-shell-environment"; "root-scope-used"] "foo" 1%nat).
  - reflexivity.
  - reflexivity.
  - reflexivity.
  - by intros [|[|[]%elem_of_nil]%elem_of_cons]%elem_of_cons.
Defined.

Lemma grammar_used_hook_emitted
    (props : Props) (hooks : list string) (g : string) (i : nat) (out : list (option string)) :
  activationHooks props = Some hooks →
  hooks !! i = Some "grammar-used" →
  grammarUsed props = Some g →
  getActivationHooks props = Ok out →
  out !! i = Some (Some (if endsWith g ":root-scope-used" then g
                         else g +:+ ":grammar-used")).
Proof.
  intros Hh Hi Hg Hout.
  unfold getActivationHooks in Hout. rewrite Hh in Hout.
  destruct (mapM_Ok_lookup _ _ _ _ _ Hout Hi) as (y & Hy & ->).
  unfold activationHook in Hy. simpl in Hy. rewrite Hg in Hy.
  by injection Hy as <-.
Qed.

(** C1. The hook [grammar-used] is tested against the suffix
    [:root-scope-used]: a [grammarUsed] that already ends with
    [:grammar-used] gets the suffix a second time, and one that ends with
    [:root-scope-used] is emitted without the suffix [:grammar-used]. *)
Theorem grammar_used_hook_tests_wrong_suffix :
  (∃ m, composeManifest (grammarProps "source.js:grammar-used") = Ok m ∧
        Manifest.activationHooks m = [Some "source.js:grammar-used:grammar-used"]) ∧
  withSuffix ":grammar-used" "source.js:grammar-used" = "source.js:grammar-used" ∧
  (∃ m, composeManifest (grammarProps "source.js:root-scope-used") = Ok m ∧
        Manifest.activationHooks m = [Some "source.js:root-scope-used"]) ∧
  withSuffix ":grammar-used" "source.js:root-scope-used"
    = "source.js:root-scope-used:grammar-used".
Proof.
  split; [|split; [|split]].
  - eexists. split; reflexivity.
  - reflexivity.
  - eexists. split; reflexivity.
  - reflexivity.
Qed.

(** ** Scripts *)

Lemma strictEq_true (v : option string) (s : string) :
  strictEq v s = true ↔ v = Some s.
Proof. unfold strictEq. apply bool_decide_eq_true. Qed.

Lemma strictEq_false (v : option string) (s : string) :
  strictEq v s = false ↔ v ≠ Some s.
Proof. unfold strictEq. apply bool_decide_eq_false. Qed.

Lemma getBuildScript_cases (props : Props) :
  (unsupportedBundler props ∧
   getBuildScript props = Throw (UnsupportedBundler (bundler props))) ∨
  (¬ unsupportedBundler props ∧ ∃ s, getBuildScript props = Ok s).
Proof.
  unfold unsupportedBundler, getBuildScript.
  destruct (includes (features props) "code"); simpl.
  - destruct (strictEq (bundler props) "webpack") eqn:Hw.
    { apply strictEq_true in Hw. right. split; [tauto|by eexists]. }
    destruct (strictEq (bundler props) "rollup") eqn:Hr.
    { apply strictEq_true in Hr. right. split; [tauto|by eexists]. }
    apply strictEq_false in Hw, Hr. by left.
  - right. split; [by intros [? _]|by eexists].
Qed.

Lemma getWatchScript_cases (props : Props) :
  (unsupportedBundler props ∧
   getWatchScript props = Throw (UnsupportedBundler (bundler props))) ∨
  (¬ unsupportedBundler props ∧ ∃ s, getWatchScript props = Ok s).
Proof.
  unfold unsupportedBundler, getWatchScript.
  destruct (includes (features props) "code"); simpl.
  - destruct (strictEq (bundler props) "webpack") eqn:Hw.
    { apply strictEq_true in Hw. right. split; [tauto|by eexists]. }
    destruct (strictEq (bundler props) "rollup") eqn:Hr.
    { apply strictEq_true in Hr. right. split; [tauto|by eexists]. }
    apply strictEq_false in Hw, Hr. by left.
  - right. split; [by intros [? _]|by eexists].
Qed.

(** C5. [getBuildScript] and [getWatchScript] throw exactly when the features
    include [code] and the bundler is neither [rollup] nor [webpack], and what
    they throw is the unsupported-bundler error; otherwise both return, a
    no-op message when [code] is not a feature, whatever the bundler.
    [composeManifest] never returns a manifest when they throw: it throws
    too, and it throws their error whenever the language extension, which
    it looks up first, is found. *)
Theorem scripts_throw_UnsupportedBundler (props : Props) :
  ((∃ e, getBuildScript props = Throw e) ↔ unsupportedBundler props) ∧
  ((∃ e, getWatchScript props = Throw e) ↔ unsupportedBundler props) ∧
  (unsupportedBundler props →
     getBuildScript props = Throw (UnsupportedBundler (bundler props)) ∧
     getWatchScript props = Throw (UnsupportedBundler (bundler props)) ∧
     (∃ e, composeManifest props = Throw e) ∧
     (∀ ext, getLanguageExtension (language props) = Ok ext →
             composeManifest props = Throw (UnsupportedBundler (bundler props)))) ∧
  (includes (features props) "code" = false →
     getBuildScript props = Ok ("echo " +:+ quoted "Nothing to build") ∧
     getWatchScript props = Ok ("echo " +:+ quoted "Nothing to watch")).
Proof.
  split; [|split; [|split]].
  - destruct (getBuildScript_cases props) as [[Hu ->]|[Hu [s ->]]].
    + split; [done|by eexists].
    + split; [by intros [e ?]|done].
  - destruct (getWatchScript_cases props) as [[Hu ->]|[Hu [s ->]]].
    + split; [done|by eexists].
    + split; [by intros [e ?]|done].
  - intros Hu.
    destruct (getBuildScript_cases props) as [[_ Hb]|[? _]]; [|done].
    destruct (getWatchScript_cases props) as [[_ Hw]|[? _]]; [|done].
    split; [done|]. split; [done|].
    unfold composeManifest. destruct Hu as [-> _]. rewrite Hb. split.
    + destruct (getLanguageExtension (language props)); by eexists.
    + by intros ext ->.
  - intros Hc. unfold getBuildScript, getWatchScript. by rewrite Hc.
Qed.

Lemma scripts_throw_UnsupportedBundler_witness :
  getBuildScript gruntProps = Throw (Error "Unsupported bundler 'grunt'") ∧
  getWatchScript gruntProps = Throw (Error "Unsupported bundler 'grunt'") ∧
  (∃ e, composeManifest gruntProps = Throw e) ∧
  (∀ ext, getLanguageExtension (language gruntProps) = Ok ext →
          composeManifest gruntProps = Throw (Error "Unsupported bundler 'grunt'")).
Proof.
  apply (scripts_throw_UnsupportedBundler gruntProps).
  split; [reflexivity|]. split; discriminate.
Defined.

(** ** Formatter options *)

(** C6. The preset [airbnb] yields exactly the eight options listed, and a
    preset that is none of the six keys of the [switch] (the missing answer
    [undefined] included) yields [undefined]. *)
Theorem getPrettierConfig_airbnb_and_unlisted :
  getPrettierConfig (Some "airbnb")
    = Some {| arrowParens := Some "always"; bracketSpacing := Some false;
              quoteProps := Some "as-needed"; semi := Some true;
              singleQuote := Some true; tabWidth := Some 2;
              trailingComma := Some "all"; useTabs := Some false |} ∧
  ∀ preset, preset ∉ prettierPresets → getPrettierConfig preset = None.
Proof.
  split; [reflexivity|].
  intros [preset|] Hnot; [|done].
  unfold getPrettierConfig, prettierPresets in *.
  repeat match goal with
         | |- context [String.eqb preset ?k] =>
             destruct (String.eqb_spec preset k) as [->|_];
             [exfalso; apply Hnot; set_solver|]
         end.
  done.
Qed.

Lemma getPrettierConfig_airbnb_and_unlisted_witness :
  getPrettierConfig (Some "prettier") = None ∧ getPrettierConfig None = None.
Proof.
  destruct getPrettierConfig_airbnb_and_unlisted as [_ H].
  split; apply H; unfold prettierPresets;
    rewrite !elem_of_cons, elem_of_nil; intros H'; decompose [or] H'; done.
Defined.

(** ** Dependencies *)

(** C9. The runtime dependency list is empty for every answer record. *)
Theorem getDependencies_runtime_empty (props : Props) :
  ∃ devDependencies, getDependencies props = ([], devDependencies).
Proof. by eexists. Qed.

(** ** Lint-staged tasks *)

Lemma languageExt_unknown (props : Props) :
  language props ∉ knownLanguages →
  languageExt props = None ∧ strictEq (language props) "coffeescript" = false.
Proof.
  intros Hnot. unfold languageExt.
  assert (∀ s, Some s ∈ knownLanguages → strictEq (language props) s = false) as H.
  { intros s Hs. apply strictEq_false. intros E. apply Hnot. by rewrite E. }
  rewrite !H; [done|unfold knownLanguages; set_solver..].
Qed.

(** C10. With [code] among the features and a language that is none of
    [coffeescript], [javascript] and [typescript] (or no language at all),
    [getLintStaged], which has no [throw] and evaluates nothing that could
    raise, returns the two fixed tasks and the task
    [*.undefined -> eslint --cache --fix]; the only other task is the one of
    the [styles] feature when it is selected. *)
Theorem getLintStaged_unknown_language (props : Props) :
  includes (features props) "code" = true →
  language props ∉ knownLanguages →
  getLintStaged props !! "*.undefined" = Some "eslint --cache --fix" ∧
  getLintStaged props !! "*.json" = Some "jsonlint --quiet" ∧
  getLintStaged props !! "*.{ts,md,yml}" = Some "prettierx --write" ∧
  getLintStaged props =
    if includes (features props) "styles"
    then <[ "*.(c|le)ss" := "stylelint --fix" ]>
           (<[ "*.undefined" := "eslint --cache --fix" ]> fixedTasks)
    else <[ "*.undefined" := "eslint --cache --fix" ]> fixedTasks.
Proof.
  intros Hcode [Hext Hcoffee]%languageExt_unknown.
  unfold getLintStaged. rewrite Hcode, Hext, Hcoffee. simpl.
  destruct (includes (features props) "styles"); by vm_compute.
Qed.

Lemma getLintStaged_unknown_language_witness :
  getLintStaged pythonProps !! "*.undefined" = Some "eslint --cache --fix" ∧
  getLintStaged pythonProps !! "*.json" = Some "jsonlint --quiet" ∧
  getLintStaged pythonProps !! "*.{ts,md,yml}" = Some "prettierx --write" ∧
  getLintStaged pythonProps = <[ "*.undefined" := "eslint --cache --fix" ]> fixedTasks.
Proof.
  apply (getLintStaged_unknown_language pythonProps).
  - reflexivity.
  - unfold knownLanguages. simpl.
    rewrite !elem_of_cons, elem_of_nil. intros H; decompose [or] H; done.
Defined.

(** ** The manifest *)

(** C4. Without the feature [code], [composeManifest] returns a manifest
    whose build, start, lint:code and test scripts are no-op messages and
    whose [activationHooks], [workspaceOpeners] and [package-deps] are empty
    arrays; its [activationCommands], however, is not empty: the array under
    [atom-workspace] always has one element, and that element is
    [undefined]. *)
Theorem composeManifest_without_code (props : Props) :
  includes (features props) "code" = false →
  ∃ m, composeManifest props = Ok m ∧
    Manifest.build (Manifest.scripts m) = "echo " +:+ quoted "Nothing to build" ∧
    Manifest.start (Manifest.scripts m) = "echo " +:+ quoted "Nothing to watch" ∧
    Manifest.lint_code (Manifest.scripts m) = "echo " +:+ quoted "Nothing to lint" ∧
    Manifest.test (Manifest.scripts m) = "echo " +:+ quoted "Nothing to test" ∧
    Manifest.activationHooks m = [] ∧
    Manifest.workspaceOpeners m = NoOpeners ∧
    Manifest.package_deps m = Some [] ∧
    Manifest.activationCommands m = {[ "atom-workspace" := [None] ]} ∧
    Manifest.activationCommands m !! "atom-workspace" ≠ Some [] ∧
    Manifest.activationCommands m ≠ ∅.
Proof.
  intros Hcode.
  unfold composeManifest, getBuildScript, getWatchScript. rewrite Hcode. simpl.
  eexists. split; [reflexivity|]. simpl.
  repeat (split; [reflexivity|]).
  split.
  - by rewrite lookup_singleton_eq.
  - apply insert_non_empty.
Qed.

Lemma composeManifest_without_code_witness :
  ∃ m, composeManifest stylesOnlyProps = Ok m ∧
    Manifest.build (Manifest.scripts m) = "echo " +:+ quoted "Nothing to build" ∧
    Manifest.start (Manifest.scripts m) = "echo " +:+ quoted "Nothing to watch" ∧
    Manifest.lint_code (Manifest.scripts m) = "echo " +:+ quoted "Nothing to lint" ∧
    Manifest.test (Manifest.scripts m) = "echo " +:+ quoted "Nothing to test" ∧
    Manifest.activationHooks m = [] ∧
    Manifest.workspaceOpeners m = NoOpeners ∧
    Manifest.package_deps m = Some [] ∧
    Manifest.activationCommands m = {[ "atom-workspace" := [None] ]} ∧
    Manifest.activationCommands m !! "atom-workspace" ≠ Some [] ∧
    Manifest.activationCommands m ≠ ∅.
Proof. apply (composeManifest_without_code stylesOnlyProps). reflexivity. Defined.

(** C3, as stated, fails: in the scenario the lint-staged map has four
    entries, not three. *)
Lemma scenario_lint_staged_not_three :
  ∃ m, composeManifest scenarioProps = Ok m ∧
       size (Manifest.lint_staged m) = 4%nat ∧
       size (Manifest.lint_staged m) ≠ 3%nat.
Proof. eexists. split; [reflexivity|]. by vm_compute. Qed.

(** C3, amended. For answers with the features [code] and [styles], the
    language [javascript], the bundler [webpack] and the presets [standard],
    whose activation hooks evaluate, the manifest's [lint:code] script is the
    eslint invocation on [./src/**/*.js], its [lint:styles] script is the
    stylelint invocation, and its lint-staged map has exactly four entries:
    the two fixed ones (JSON files and [{ts,md,yml}] files), the one of the
    code extension [*.js] and the one of the style extensions. *)
Theorem scenario_javascript_webpack_styles
    (props : Props) (hooks : list (option string)) :
  includes (features props) "code" = true →
  includes (features props) "styles" = true →
  language props = Some "javascript" →
  bundler props = Some "webpack" →
  eslintConfig props = Some "standard" →
  stylelintConfig props = Some "standard" →
  getActivationHooks props = Ok hooks →
  ∃ m, composeManifest props = Ok m ∧
    Manifest.lint_code (Manifest.scripts m)
      = "eslint --ignore-path .gitignore --no-error-on-unmatched-pattern ./src/**/*.js" ∧
    Manifest.lint_styles (Manifest.scripts m)
      = "stylelint --allow-empty-input styles/*.{css,less}" ∧
    Manifest.lint_staged m = javascriptStylesTasks ∧
    size (Manifest.lint_staged m) = 4%nat.
Proof.
  intros Hcode Hstyles Hlang Hbundler _ _ Hhooks.
  unfold composeManifest, getBuildScript, getWatchScript, getLintStaged, languageExt.
  rewrite Hcode, Hstyles, Hlang, Hbundler, Hhooks. simpl.
  eexists. split; [reflexivity|]. simpl.
  split; [reflexivity|]. split; [reflexivity|].
  split; by vm_compute.
Qed.

Lemma scenario_javascript_webpack_styles_witness :
  ∃ m, composeManifest scenarioProps = Ok m ∧
    Manifest.lint_code (Manifest.scripts m)
      = "eslint --ignore-path .gitignore --no-error-on-unmatched-pattern ./src/**/*.js" ∧
    Manifest.lint_styles (Manifest.scripts m)
      = "stylelint --allow-empty-input styles/*.{css,less}" ∧
    Manifest.lint_staged m = javascriptStylesTasks ∧
    size (Manifest.lint_staged m) = 4%nat.
Proof.
  apply (scenario_javascript_webpack_styles scenarioProps []); reflexivity.
Defined.

(** ** Dependency lists: order, nesting, repeats *)

Lemma push_repeat_not_NoDup (d : list entry) (x y : entry) :
  x ∈ d → ¬ NoDup (push d [x; y]).
Proof.
  unfold push. intros Hin [_ [Hdisj _]]%NoDup_app.
  apply (Hdisj x Hin). by left.
Qed.

Lemma devDependenciesPushed_flat (props : Props) :
  nothingNested props → Forall isStr (devDependenciesPushed props).
Proof.
  intros [Hadd Hbabel]. unfold devDependenciesPushed.
  destruct Hadd as [-> | ->];
    (destruct (strictEq (language props) "javascript") eqn:Hjs;
     [ apply strictEq_true in Hjs; destruct (Hbabel Hjs) as [-> | ->] | ]);
    split_answers; unfold push; simpl; repeat constructor.
Qed.

Lemma devDependenciesPushed_styles (props : Props) :
  includes (features props) "styles" = true →
  ¬ NoDup (devDependenciesPushed props).
Proof.
  intros Hstyles. unfold devDependenciesPushed. rewrite Hstyles.
  apply push_repeat_not_NoDup.
  split_answers; unfold push; rewrite ?elem_of_app, ?elem_of_cons; tauto.
Qed.

(** C2, as stated, fails: with the feature [styles] the development list
    holds [stylelint] twice. *)
Lemma styles_devDependencies_not_uniqueSorted :
  ¬ uniqueSorted (getDependencies stylesOnlyProps).2.
Proof.
  intros (_ & _ & Hnd).
  apply (devDependenciesPushed_styles stylesOnlyProps); [reflexivity|].
  change (NoDup (sort (devDependenciesPushed stylesOnlyProps))) in Hnd.
  by rewrite <- sort_Permutation in Hnd.
Qed.

(** C2, amended. The runtime list is flat, sorted and free of repeats (it
    is empty). The development list is non-decreasing in the code-unit
    order of its entries, every entry being below all later ones; it is the
    contributions of all trigger rules reordered, none of them dropped, so
    that a package contributed twice occurs twice: with the feature
    [styles] the list has a repeat. It is a flat list of strings when
    neither [additionalDependencies] nor [babelPresets] contributes. *)
Theorem getDependencies_sorted_keeps_repeats (props : Props) :
  uniqueSorted (getDependencies props).1 ∧
  StronglySorted entryLe (getDependencies props).2 ∧
  Sorted entryLe (getDependencies props).2 ∧
  Permutation (devDependenciesPushed props) (getDependencies props).2 ∧
  (nothingNested props → Forall isStr (getDependencies props).2) ∧
  (includes (features props) "styles" = true →
   ¬ NoDup (getDependencies props).2).
Proof.
  simpl. repeat split.
  - constructor.
  - constructor.
  - constructor.
  - apply sort_StronglySorted.
  - apply StronglySorted_Sorted, sort_StronglySorted.
  - apply sort_Permutation.
  - intros Hflat. rewrite <- sort_Permutation.
    by apply devDependenciesPushed_flat.
  - intros Hstyles. rewrite <- sort_Permutation.
    by apply devDependenciesPushed_styles.
Qed.

Lemma getDependencies_sorted_keeps_repeats_witness :
  Forall isStr (getDependencies stylesOnlyProps).2 ∧
  ¬ NoDup (getDependencies stylesOnlyProps).2.
Proof.
  destruct (getDependencies_sorted_keeps_repeats stylesOnlyProps)
    as (_ & _ & _ & _ & Hflat & Hrep).
  split.
  - apply Hflat. split; [by left|]. discriminate.
  - apply Hrep. reflexivity.
Defined.

(** ** Paths *)

Lemma chars_nil (s : string) : chars s = [] → s = "".
Proof. by destruct s. Qed.

Lemma string_length_zero (s : string) : String.length s = 0%nat → s = "".
Proof. by destruct s. Qed.

Lemma not_hasChar_Forall (c : ascii) (s : string) :
  ¬ hasChar c s → Forall (λ x, Ascii.eqb x c = false) (chars s).
Proof.
  unfold hasChar. intros Hnot. apply Forall_forall. intros x Hx.
  destruct (Ascii.eqb_spec x c) as [->|]; [done|done].
Qed.

Lemma takePortion_app (p q : list ascii) :
  Forall (λ x, isSlash x = false) p → takePortion (p ++ "/"%char :: q) = p.
Proof.
  induction 1 as [|c p Hc _ IH]; simpl; [done|]. by rewrite Hc, IH.
Qed.

Lemma dropSlashes_portion (p q : list ascii) :
  p ≠ [] → Forall (λ x, isSlash x = false) p → dropSlashes (p ++ q) = p ++ q.
Proof. intros Hp H. destruct H as [|c p Hc _]; [done|]. simpl. by rewrite Hc. Qed.

Lemma splitExt_app (e b : list ascii) :
  Forall (λ x, isDot x = false) e → splitExt (e ++ "."%char :: b) = Some (e, b).
Proof.
  induction 1 as [|c e Hc _ IH]; simpl; [done|]. by rewrite Hc, IH.
Qed.

Lemma dirnameEnd_app_false (p q : list ascii) :
  Forall (λ x, isSlash x = false) p → dirnameEnd (p ++ "/"%char :: q) false = Some q.
Proof.
  induction 1 as [|c p Hc _ IH]; simpl; [done|]. by rewrite Hc.
Qed.

Lemma dirnameEnd_app (p q : list ascii) :
  p ≠ [] → Forall (λ x, isSlash x = false) p →
  dirnameEnd (p ++ "/"%char :: q) true = Some q.
Proof.
  intros Hp H. destruct H as [|c p Hc Hrest]; [done|]. simpl. rewrite Hc.
  by apply dirnameEnd_app_false.
Qed.

Section WellShapedPath.
Variables dir stem ext : string.
Hypothesis dir_not_empty : dir ≠ "".
Hypothesis dir_not_root : dir ≠ "/".
Hypothesis stem_not_empty : stem ≠ "".
Hypothesis stem_no_slash : ¬ hasChar "/" stem.
Hypothesis ext_no_slash : ¬ hasChar "/" ext.
Hypothesis ext_no_dot : ¬ hasChar "." ext.
Hypothesis not_dot_dot : stem ≠ "." ∨ ext ≠ "".

Lemma portionRev_no_slash : Forall (λ x, isSlash x = false) (portionRev stem ext).
Proof.
  unfold portionRev. apply Forall_app. split.
  - apply Forall_rev. by apply not_hasChar_Forall.
  - constructor; [done|]. apply Forall_rev. by apply not_hasChar_Forall.
Qed.

Lemma portionRev_not_nil : portionRev stem ext ≠ [].
Proof. unfold portionRev. by destruct (rev (chars ext)). Qed.

Lemma rev_chars_filePath :
  rev (chars (pathOf dir stem ext)) = portionRev stem ext ++ "/"%char :: rev (chars dir).
Proof.
  unfold pathOf, portionRev.
  rewrite !chars_app. simpl. rewrite !rev_app_distr. simpl.
  rewrite !rev_app_distr. simpl. by rewrite <- !app_assoc.
Qed.

Lemma lastPortionRev_filePath : lastPortionRev (pathOf dir stem ext) = portionRev stem ext.
Proof.
  unfold lastPortionRev. rewrite rev_chars_filePath.
  rewrite dropSlashes_portion, takePortion_app;
    auto using portionRev_no_slash, portionRev_not_nil.
Qed.

Lemma str_portionRev_not_dot_dot : str (portionRev stem ext) ≠ "..".
Proof.
  unfold portionRev. intros H.
  destruct (rev (chars ext)) as [|c e] eqn:He.
  - simpl in H. injection H as H.
    pose proof not_dot_dot as [Hs|Hx].
    + apply Hs. rewrite <- (str_chars stem), <- (rev_involutive (chars stem)).
      destruct (rev (chars stem)) as [|a [|b r]]; simpl in H |- *; congruence.
    + apply Hx, chars_nil. by rewrite <- (rev_involutive (chars ext)), He.
  - simpl in H. injection H as -> _.
    apply ext_no_dot. unfold hasChar.
    rewrite <- (rev_involutive (chars ext)), He.
    apply list_elem_of_In, in_rev. rewrite rev_involutive. by left.
Qed.

Lemma extname_filePath : extname (pathOf dir stem ext) = "." +:+ ext.
Proof.
  unfold extname. rewrite lastPortionRev_filePath.
  unfold portionRev at 1. rewrite splitExt_app.
  2: { apply Forall_rev. by apply not_hasChar_Forall. }
  rewrite (bool_decide_eq_false_2 (rev (chars stem) = [])).
  2: { intros H. apply stem_not_empty, chars_nil.
       by rewrite <- (rev_involutive (chars stem)), H. }
  rewrite (bool_decide_eq_false_2 _ str_portionRev_not_dot_dot). simpl.
  by rewrite rev_involutive, str_chars.
Qed.

Lemma basename_filePath : basename (pathOf dir stem ext) ("." +:+ ext) = stem.
Proof.
  unfold basename. rewrite lastPortionRev_filePath.
  assert (str (rev (portionRev stem ext)) = stem +:+ "." +:+ ext) as ->.
  { unfold portionRev. rewrite rev_app_distr. simpl.
    rewrite rev_involutive, <- app_assoc, rev_involutive. simpl.
    rewrite str_app. simpl. by rewrite !str_chars. }
  unfold pathOf. remember ("." +:+ ext) as e eqn:Hdef.
  assert (String.length e = S (String.length ext)) as He by (by rewrite Hdef).
  clear Hdef.
  destruct (String.eqb_spec e (dir +:+ "/" +:+ stem +:+ e)) as [E|_].
  { apply (f_equal String.length) in E.
    rewrite !string_app_length in E. simpl in E. lia. }
  rewrite endsWith_app.
  destruct (String.eqb_spec (stem +:+ e) e) as [E|_].
  { apply (f_equal String.length) in E.
    rewrite !string_app_length in E.
    exfalso. apply stem_not_empty, string_length_zero. lia. }
  destruct (String.eqb_spec e "") as [E|_].
  { rewrite E in He. done. }
  simpl.
  replace (String.length (stem +:+ e) - String.length e)%nat
    with (String.length stem) by (rewrite string_app_length; lia).
  apply substring_app_l.
Qed.

Lemma dirname_filePath : dirname (pathOf dir stem ext) = dir.
Proof.
  unfold pathOf. destruct dir as [|c0 dtail] eqn:Hdir; [done|].
  rewrite string_app_cons. unfold dirname.
  assert (rev (chars (dtail +:+ "/" +:+ stem +:+ "." +:+ ext))
          = portionRev stem ext ++ "/"%char :: rev (chars dtail)) as ->.
  { unfold portionRev. rewrite !chars_app. simpl. rewrite !rev_app_distr. simpl.
    rewrite !rev_app_distr. simpl. by rewrite <- !app_assoc. }
  rewrite dirnameEnd_app; auto using portionRev_no_slash, portionRev_not_nil.
  rewrite rev_involutive, str_chars.
  destruct (isSlash c0) eqn:Hc0; [|done]. simpl.
  rewrite bool_decide_eq_false_2; [done|].
  intros H. apply dir_not_root.
  apply Ascii.eqb_eq in Hc0 as ->. f_equal. apply chars_nil.
  by rewrite <- (rev_involutive (chars dtail)), H.
Qed.

End WellShapedPath.

Lemma getDestinationPath_eq (filePath l : string) :
  getDestinationPath filePath (Some l) =
    (ext ←! getLanguageExtension (Some l) ;;
     Ok (dirname filePath +:+ "/" +:+ basename filePath (extname filePath)
         +:+ "." +:+ ext)).
Proof.
  unfold getDestinationPath, getLanguageExtension.
  repeat match goal with
         | |- context [String.eqb (toLowerCase l) ?k] =>
             destruct (String.eqb (toLowerCase l) k)
         end; done.
Qed.

Lemma getLanguageExtension_unsupported (l : string) :
  toLowerCase l ∉ languageNames →
  getLanguageExtension (Some l) = Throw UnsupportedLanguage.
Proof.
  intros Hnot. unfold getLanguageExtension, languageNames in *.
  repeat match goal with
         | |- context [String.eqb (toLowerCase l) ?k] =>
             destruct (String.eqb_spec (toLowerCase l) k) as [E|_];
             [exfalso; apply Hnot; rewrite E; set_solver|]
         end.
  done.
Qed.

(** C7, as stated, fails: [TypeScript] is not one of the three known values,
    and neither function raises for it. *)
Lemma capitalised_language_is_supported :
  ("TypeScript" ∉ languageNames) ∧
  getDestinationPath "src/main.ejs" (Some "TypeScript") = Ok "src/main.ts" ∧
  getLanguageExtension (Some "TypeScript") = Ok "ts".
Proof.
  split; [|split; reflexivity].
  unfold languageNames. rewrite !elem_of_cons, elem_of_nil.
  intros H; decompose [or] H; done.
Qed.

(** C7, amended. The language is compared after lower-casing. For a path
    [dir/stem.ext] (a directory other than the root, a non-empty file name
    without separator, an extension without separator or dot),
    [getDestinationPath] returns [dir/stem.ts], [dir/stem.js] or
    [dir/stem.coffee] when the lower-cased language is [typescript],
    [javascript] or [coffeescript], and [getLanguageExtension] returns the
    matching extension; for a language string whose lower-cased form is
    none of the three, both raise the unsupported-language error, whatever
    the path. *)
Theorem getDestinationPath_by_lowercased_language (dir stem ext l : string) :
  dir ≠ "" → dir ≠ "/" → stem ≠ "" →
  ¬ hasChar "/" stem → ¬ hasChar "/" ext → ¬ hasChar "." ext →
  stem ≠ "." ∨ ext ≠ "" →
  let filePath := pathOf dir stem ext in
  (toLowerCase l = "typescript" →
     getDestinationPath filePath (Some l) = Ok (dir +:+ "/" +:+ stem +:+ ".ts") ∧
     getLanguageExtension (Some l) = Ok "ts") ∧
  (toLowerCase l = "javascript" →
     getDestinationPath filePath (Some l) = Ok (dir +:+ "/" +:+ stem +:+ ".js") ∧
     getLanguageExtension (Some l) = Ok "js") ∧
  (toLowerCase l = "coffeescript" →
     getDestinationPath filePath (Some l) = Ok (dir +:+ "/" +:+ stem +:+ ".coffee") ∧
     getLanguageExtension (Some l) = Ok "coffee") ∧
  (toLowerCase l ∉ languageNames →
     getLanguageExtension (Some l) = Throw UnsupportedLanguage ∧
     ∀ anyPath, getDestinationPath anyPath (Some l) = Throw UnsupportedLanguage).
Proof.
  intros H1 H2 H3 H4 H5 H6 H7 filePath.
  assert (∀ e, getLanguageExtension (Some l) = Ok e →
               getDestinationPath filePath (Some l)
                 = Ok (dir +:+ "/" +:+ stem +:+ "." +:+ e)) as Hpath.
  { intros e He. rewrite getDestinationPath_eq, He. simpl. unfold filePath.
    rewrite extname_filePath, basename_filePath, dirname_filePath; done. }
  split; [|split; [|split]].
  - intros Hl.
    assert (getLanguageExtension (Some l) = Ok "ts") as He
      by (unfold getLanguageExtension; by rewrite Hl).
    by rewrite (Hpath _ He).
  - intros Hl.
    assert (getLanguageExtension (Some l) = Ok "js") as He
      by (unfold getLanguageExtension; by rewrite Hl).
    by rewrite (Hpath _ He).
  - intros Hl.
    assert (getLanguageExtension (Some l) = Ok "coffee") as He
      by (unfold getLanguageExtension; by rewrite Hl).
    by rewrite (Hpath _ He).
  - intros Hl%getLanguageExtension_unsupported. split; [done|].
    intros anyPath. by rewrite getDestinationPath_eq, Hl.
Qed.

Lemma getDestinationPath_by_lowercased_language_witness :
  (toLowerCase "typescript" = "typescript" →
     getDestinationPath "src/main.ejs" (Some "typescript") = Ok "src/main.ts" ∧
     getLanguageExtension (Some "typescript") = Ok "ts") ∧
  (toLowerCase "typescript" = "javascript" →
     getDestinationPath "src/main.ejs" (Some "typescript") = Ok "src/main.js" ∧
     getLanguageExtension (Some "typescript") = Ok "js") ∧
  (toLowerCase "typescript" = "coffeescript" →
     getDestinationPath "src/main.ejs" (Some "typescript") = Ok "src/main.coffee" ∧
     getLanguageExtension (Some "typescript") = Ok "coffee") ∧
  (toLowerCase "typescript" ∉ languageNames →
     getLanguageExtension (Some "typescript") = Throw UnsupportedLanguage ∧
     ∀ anyPath, getDestinationPath anyPath (Some "typescript") = Throw UnsupportedLanguage).
Proof.
  assert (∀ c s, ¬ hasChar c s ↔ bool_decide (c ∈ chars s) = false) as Hno
    by (intros; symmetry; apply bool_decide_eq_false).
  apply (getDestinationPath_by_lowercased_language "src" "main" "ejs" "typescript");
    try discriminate; try (apply Hno; reflexivity).
  left. discriminate.
Defined.

(** * Further properties of the helpers *)

(** ** Activation hooks: shape of the result and failures *)

Lemma mapM_Ok_length {A B : Type} (f : A → result B) (l : list A) (out : list B) :
  mapM f l = Ok out → length out = length l.
Proof.
  revert out. induction l as [|a l IH]; intros out Hm; simpl in Hm.
  - by injection Hm as <-.
  - apply bind_Ok in Hm as (y & Hy & Hm).
    apply bind_Ok in Hm as (ys & Hys & [= <-]).
    simpl. f_equal. by apply IH.
Qed.

Lemma mapM_Throw {A B : Type} (f : A → result B) (l : list A) (e : exn) :
  mapM f l = Throw e → ∃ x, x ∈ l ∧ f x = Throw e.
Proof.
  induction l as [|a l IH]; simpl; [done|].
  destruct (f a) as [y|e'] eqn:Hfa; simpl.
  - destruct (mapM f l) as [ys|e'] eqn:Hm; simpl; [done|].
    intros [= ->]. destruct (IH eq_refl) as (x & Hx & Hfx).
    exists x. split; [by right|done].
  - intros [= ->]. exists a. split; [by left|done].
Qed.

Lemma mapM_not_Ok {A B : Type} (f : A → result B) (l : list A) (x : A) (e : exn) :
  x ∈ l → f x = Throw e → ∃ e', mapM f l = Throw e'.
Proof.
  intros Hx Hfx. induction l as [|a l IH]; [by apply elem_of_nil in Hx|].
  simpl. destruct (f a) as [y|e'] eqn:Hfa; simpl; [|by eexists].
  apply elem_of_cons in Hx as [->|Hx]; [congruence|].
  destruct (IH Hx) as [e' ->]. by eexists.
Qed.

Lemma activationHook_Throw (props : Props) (hook : string) (e : exn) :
  activationHook props hook = Throw e ↔
  e = TypeError ∧
  ((hook = "root-scope-used" ∧ rootScopeUsed props = None) ∨
   (hook = "grammar-used" ∧ grammarUsed props = None)).
Proof.
  unfold activationHook.
  destruct (String.eqb_spec hook "core:loaded-shell-environment") as [->|_].
  { split; [done|]. by intros [_ [[? _]|[? _]]]. }
  destruct (String.eqb_spec hook "root-scope-used") as [->|Hr].
  { destruct (rootScopeUsed props) as [r|]; split.
    - done.
    - by intros [_ [[_ ?]|[? _]]].
    - intros [= <-]. split; [done|by left].
    - by intros [-> _]. }
  destruct (String.eqb_spec hook "grammar-used") as [->|Hg].
  { destruct (grammarUsed props) as [g|]; split.
    - done.
    - by intros [_ [[? _]|[_ ?]]].
    - intros [= <-]. split; [done|by right].
    - by intros [-> _]. }
  split; [done|]. by intros [_ [[? _]|[? _]]].
Qed.

(** X1. When [getActivationHooks] returns, its result has one entry per
    selected hook, in the order of the selection: the entry of
    [core:loaded-shell-environment] is that name, and the entry of a hook
    that is none of the three known names is [undefined]. *)
Theorem getActivationHooks_entries
    (props : Props) (hooks : list string) (out : list (option string)) :
  activationHooks props = Some hooks →
  getActivationHooks props = Ok out →
  length out = length hooks ∧
  ∀ i hook, hooks !! i = Some hook →
    (hook = "core:loaded-shell-environment" → out !! i = Some (Some hook)) ∧
    (hook ∉ hookNames → out !! i = Some None).
Proof.
  intros Hh Hout. unfold getActivationHooks in Hout. rewrite Hh in Hout.
  split; [by eapply mapM_Ok_length|].
  intros i hook Hi.
  destruct (mapM_Ok_lookup _ _ _ _ _ Hout Hi) as (y & Hy & ->).
  unfold activationHook in Hy. split.
  - intros ->. simpl in Hy. by injection Hy as <-.
  - intros Hnot. unfold hookNames in Hnot.
    repeat match type of Hy with
           | context [String.eqb hook ?k] =>
               destruct (String.eqb_spec hook k) as [E|_];
               [exfalso; apply Hnot; rewrite E; set_solver|]
           end.
    by injection Hy as <-.
Qed.

Lemma getActivationHooks_entries_witness :
  length [Some "core:loaded-shell-environment"; @None string] = 2%nat ∧
  ∀ i hook, ["core:loaded-shell-environment"; "language-used"] !! i = Some hook →
    (hook = "core:loaded-shell-environment" →
       [Some "core:loaded-shell-environment"; None] !! i = Some (Some hook)) ∧
    (hook ∉ hookNames →
       [Some "core:loaded-shell-environment"; @None string] !! i = Some None).
Proof.
  apply (getActivationHooks_entries unknownHookProps
           ["core:loaded-shell-environment"; "language-used"]
           [Some "core:loaded-shell-environment"; None]); reflexivity.
Defined.

(** X2. [getActivationHooks] throws exactly when no hooks were answered, or
    when [root-scope-used] or [grammar-used] is selected and its answer is
    missing; what it throws is always a [TypeError]. *)
Theorem getActivationHooks_throws (props : Props) :
  ((∃ e, getActivationHooks props = Throw e) ↔
   activationHooks props = None ∨
   ∃ hooks, activationHooks props = Some hooks ∧
     (("root-scope-used" ∈ hooks ∧ rootScopeUsed props = None) ∨
      ("grammar-used" ∈ hooks ∧ grammarUsed props = None))) ∧
  ∀ e, getActivationHooks props = Throw e → e = TypeError.
Proof.
  unfold getActivationHooks.
  destruct (activationHooks props) as [hooks|] eqn:Hh.
  - split; [split|].
    + intros [e (hook & Hin & He)%mapM_Throw].
      apply activationHook_Throw in He as [_ He]. right. exists hooks.
      split; [done|]. destruct He as [[-> ?]|[-> ?]]; [by left|by right].
    + intros [|(hooks' & [= <-] & Hmiss)]; [done|].
      destruct Hmiss as [[Hin Hnone]|[Hin Hnone]].
      * eapply mapM_not_Ok; [exact Hin|].
        apply activationHook_Throw. split; [done|by left].
      * eapply mapM_not_Ok; [exact Hin|].
        apply activationHook_Throw. split; [done|by right].
    + intros e (hook & _ & He)%mapM_Throw.
      by apply activationHook_Throw in He as [-> _].
  - split; [split|].
    + by left.
    + by eexists.
    + by intros e [= <-].
Qed.

Lemma getActivationHooks_throws_witness :
  ∃ e, getActivationHooks stylesOnlyProps = Throw e.
Proof.
  destruct (getActivationHooks_throws stylesOnlyProps) as [[_ H] _].
  apply H. left. reflexivity.
Defined.

(** ** The manifest: when it is returned, and what it says of the code *)

Lemma getLanguageExtension_Ok (l : option string) (ext : string) :
  getLanguageExtension l = Ok ext → ext = "ts" ∨ ext = "js" ∨ ext = "coffee".
Proof.
  destruct l as [l|]; [|done]. unfold getLanguageExtension.
  repeat match goal with
         | |- context [String.eqb (toLowerCase l) ?k] =>
             destruct (String.eqb (toLowerCase l) k)
         end; intros [= <-]; auto.
Qed.

(** X3. [composeManifest] returns a manifest exactly when the feature [code]
    is not selected, or the language extension is found, the bundler is
    supported and the activation hooks evaluate. With [code] it throws the
    exception of the first of these three steps that fails: the language
    before the bundler, the bundler before the hooks. *)
Theorem composeManifest_returns_iff (props : Props) :
  ((∃ m, composeManifest props = Ok m) ↔
   includes (features props) "code" = false ∨
   ((∃ ext, getLanguageExtension (language props) = Ok ext) ∧
    ¬ unsupportedBundler props ∧
    ∃ hooks, getActivationHooks props = Ok hooks)) ∧
  (includes (features props) "code" = true →
   (∀ e, getLanguageExtension (language props) = Throw e →
         composeManifest props = Throw e) ∧
   (∀ ext, getLanguageExtension (language props) = Ok ext →
      (unsupportedBundler props →
         composeManifest props = Throw (UnsupportedBundler (bundler props))) ∧
      (¬ unsupportedBundler props →
         ∀ e, getActivationHooks props = Throw e →
              composeManifest props = Throw e))).
Proof.
  unfold composeManifest.
  destruct (includes (features props) "code") eqn:Hcode.
  - destruct (getLanguageExtension (language props)) as [ext|e] eqn:Hext; simpl.
    + destruct (getBuildScript_cases props) as [[Hu Hb]|[Hu [b Hb]]];
        destruct (getWatchScript_cases props) as [[Hu' Hw]|[Hu' [w Hw]]];
        try done; rewrite Hb; simpl.
      * split; [split|].
        -- by intros [m ?].
        -- intros [|(_ & ? & _)]; done.
        -- intros _. split; [done|]. intros ? [= <-]. by split.
      * rewrite Hw. simpl.
        destruct (getActivationHooks props) as [hooks|e] eqn:Hh; simpl.
        -- split; [split|].
           ++ intros _. right. split; [by eexists|]. split; [done|by eexists].
           ++ intros _. by eexists.
           ++ intros _. split; [done|]. intros ? [= <-]. split; [done|].
              intros _ ? ?. done.
        -- split; [split|].
           ++ by intros [m ?].
           ++ intros [|(_ & _ & [? ?])]; done.
           ++ intros _. split; [done|]. intros ? [= <-]. split; [done|].
              by intros _ ? [= <-].
    + split; [split|].
      * by intros [m ?].
      * intros [|([? ?] & _)]; done.
      * intros _. split; [by intros ? [= <-]|done].
  - unfold getBuildScript, getWatchScript. rewrite Hcode. simpl.
    split; [split|done].
    + intros _. by left.
    + intros _. by eexists.
Qed.

Lemma composeManifest_returns_iff_witness :
  (∀ e, getLanguageExtension (language pythonProps) = Throw e →
        composeManifest pythonProps = Throw e) ∧
  (∀ ext, getLanguageExtension (language pythonProps) = Ok ext →
     (unsupportedBundler pythonProps →
        composeManifest pythonProps
          = Throw (UnsupportedBundler (bundler pythonProps))) ∧
     (¬ unsupportedBundler pythonProps →
        ∀ e, getActivationHooks pythonProps = Throw e →
             composeManifest pythonProps = Throw e)).
Proof. apply (composeManifest_returns_iff pythonProps). reflexivity. Defined.

(** X4. In every manifest returned, [activationCommands] has the single key
    [atom-workspace] with an array of exactly one element; that element is
    the command [<name>:hello-world] exactly when [code] is a feature and
    the activation command was answered with yes. *)
Theorem activationCommands_one_entry (props : Props) (m : Manifest.t) :
  composeManifest props = Ok m →
  size (Manifest.activationCommands m) = 1%nat ∧
  (∃ entry, Manifest.activationCommands m !! "atom-workspace" = Some [entry]) ∧
  (Manifest.activationCommands m !! "atom-workspace"
     = Some [Some (name props +:+ ":hello-world")] ↔
   includes (features props) "code" = true ∧ activationCommands props = Some true).
Proof.
  unfold composeManifest. intros Hm.
  apply bind_Ok in Hm as (ext & _ & Hm).
  apply bind_Ok in Hm as (b & _ & Hm).
  apply bind_Ok in Hm as (w & _ & Hm).
  apply bind_Ok in Hm as (hooks & _ & [= <-]). simpl.
  rewrite map_size_singleton, lookup_singleton_eq.
  split; [done|]. split; [by eexists|].
  destruct (includes (features props) "code"); simpl.
  - destruct (activationCommands props) as [[]|]; simpl; split;
      by try intros [_ ?].
  - split; [done|by intros [? _]].
Qed.

Lemma activationCommands_one_entry_witness :
  ∃ m, composeManifest scenarioProps = Ok m ∧
       Manifest.activationCommands m !! "atom-workspace"
         = Some [Some "demo:hello-world"].
Proof.
  eexists. split; [reflexivity|].
  apply (activationCommands_one_entry scenarioProps); [reflexivity|].
  split; reflexivity.
Defined.

Lemma composeManifest_fields (props : Props) (m : Manifest.t) :
  composeManifest props = Ok m →
  ∃ ext,
    (if includes (features props) "code"
     then getLanguageExtension (language props) else Ok "") = Ok ext ∧
    Manifest.lint_code (Manifest.scripts m) =
      (if includes (features props) "code" then
         if strictEq (language props) "coffeescript" then "coffeelint ./src"
         else "eslint --ignore-path .gitignore --no-error-on-unmatched-pattern ./src/**/*."
              +:+ ext
       else "echo " +:+ quoted "Nothing to lint") ∧
    Manifest.lint_staged m = getLintStaged props.
Proof.
  unfold composeManifest. intros Hm.
  apply bind_Ok in Hm as (ext & Hext & Hm).
  apply bind_Ok in Hm as (b & _ & Hm).
  apply bind_Ok in Hm as (w & _ & Hm).
  apply bind_Ok in Hm as (hooks & _ & [= <-]). by exists ext.
Qed.

(** X5. With [code] selected and a language that is exactly [typescript],
    [javascript] or [coffeescript], the manifest's lint-staged map has a task
    for the glob of the extension [getLanguageExtension] gives, and that task
    and the [lint:code] script use the same linter: coffeelint for
    CoffeeScript, eslint otherwise, the script on the files of that
    extension. *)
Theorem lint_tasks_follow_language (props : Props) (m : Manifest.t) (l : string) :
  includes (features props) "code" = true →
  language props = Some l →
  l ∈ languageNames →
  composeManifest props = Ok m →
  ∃ ext, getLanguageExtension (Some l) = Ok ext ∧
    Manifest.lint_staged m !! ("*." +:+ ext)
      = Some (if String.eqb l "coffeescript" then "coffeelint ./src"
              else "eslint --cache --fix") ∧
    Manifest.lint_code (Manifest.scripts m)
      = (if String.eqb l "coffeescript" then "coffeelint ./src"
         else "eslint --ignore-path .gitignore --no-error-on-unmatched-pattern ./src/**/*."
              +:+ ext).
Proof.
  intros Hcode Hlang Hin Hm.
  destruct (composeManifest_fields props m Hm) as (ext & Hext & -> & ->).
  rewrite Hcode, Hlang in Hext. exists ext. split; [done|].
  unfold getLintStaged, languageExt. rewrite Hcode, Hlang.
  unfold languageNames in Hin.
  apply elem_of_cons in Hin as [->|Hin];
    [|apply elem_of_cons in Hin as [->|Hin];
      [|apply elem_of_cons in Hin as [->|Hin]; [|by apply elem_of_nil in Hin]]];
    injection Hext as <-;
    destruct (includes (features props) "styles"); split; by vm_compute.
Qed.

Lemma lint_tasks_follow_language_witness :
  ∃ m ext, composeManifest scenarioProps = Ok m ∧
    getLanguageExtension (Some "javascript") = Ok ext ∧
    Manifest.lint_staged m !! ("*." +:+ ext) = Some "eslint --cache --fix".
Proof.
  eexists.
  destruct (lint_tasks_follow_language scenarioProps _ "javascript"
              eq_refl eq_refl ltac:(by right; left) eq_refl)
    as (ext & Hext & Hstaged & _).
  exists ext. split; [reflexivity|]. split; [exact Hext|exact Hstaged].
Defined.

(** X6. With [code] selected and a language that is one of the three names
    only up to letter case, [composeManifest] still returns: the [lint:code]
    script is the eslint invocation on the files of the extension found by
    lower-casing, also for CoffeeScript, while the lint-staged map has no
    task for that extension but one for the glob [*.undefined]. *)
Theorem mixed_case_language_lint_tasks
    (props : Props) (m : Manifest.t) (l ext : string) :
  includes (features props) "code" = true →
  language props = Some l →
  l ∉ languageNames →
  getLanguageExtension (Some l) = Ok ext →
  composeManifest props = Ok m →
  Manifest.lint_code (Manifest.scripts m)
    = "eslint --ignore-path .gitignore --no-error-on-unmatched-pattern ./src/**/*."
      +:+ ext ∧
  Manifest.lint_staged m !! "*.undefined" = Some "eslint --cache --fix" ∧
  Manifest.lint_staged m !! ("*." +:+ ext) = None.
Proof.
  intros Hcode Hlang Hnot Hext Hm.
  destruct (composeManifest_fields props m Hm) as (ext' & Hext' & -> & ->).
  rewrite Hcode, Hlang, Hext in Hext'. injection Hext' as <-.
  assert (language props ∉ knownLanguages) as Hunknown.
  { rewrite Hlang. unfold knownLanguages, languageNames in *.
    rewrite !elem_of_cons, elem_of_nil in *.
    intros [[= ->]|[[= ->]|[[= ->]|[]]]]; tauto. }
  apply languageExt_unknown in Hunknown as [Hle Hcoffee].
  rewrite Hcode, Hcoffee. split; [done|].
  unfold getLintStaged. rewrite Hcode, Hle, Hcoffee.
  apply getLanguageExtension_Ok in Hext as [->|[->| ->]];
    destruct (includes (features props) "styles"); split; by vm_compute.
Qed.

Lemma mixed_case_language_lint_tasks_witness :
  ∃ m, composeManifest mixedCaseProps = Ok m ∧
    Manifest.lint_code (Manifest.scripts m)
      = "eslint --ignore-path .gitignore --no-error-on-unmatched-pattern ./src/**/*.coffee" ∧
    Manifest.lint_staged m !! "*.undefined" = Some "eslint --cache --fix" ∧
    Manifest.lint_staged m !! "*.coffee" = None.
Proof.
  eexists. split; [reflexivity|].
  apply (mixed_case_language_lint_tasks mixedCaseProps _ "CoffeeScript" "coffee");
    try reflexivity.
  unfold languageNames. rewrite !elem_of_cons, elem_of_nil.
  intros H; decompose [or] H; done.
Defined.

(** ** Lint-staged tasks: the keys *)

(** X7. The lint-staged map always holds the two fixed tasks, and its size
    is two, plus one when [code] is a feature, plus one when [styles] is:
    the glob of the language never coincides with another key. *)
Theorem getLintStaged_size (props : Props) :
  getLintStaged props !! "*.json" = Some "jsonlint --quiet" ∧
  getLintStaged props !! "*.{ts,md,yml}" = Some "prettierx --write" ∧
  size (getLintStaged props)
    = (2 + (if includes (features props) "code" then 1 else 0)
         + (if includes (features props) "styles" then 1 else 0))%nat.
Proof.
  unfold getLintStaged, languageExt.
  split_answers; repeat split; by vm_compute.
Qed.

(** ** Dependencies: which rule contributes what *)

Lemma elem_of_memb (x : entry) (l : list entry) : x ∈ l ↔ memb x l.
Proof.
  induction l as [|y l IH]; simpl; [by rewrite elem_of_nil|].
  by rewrite elem_of_cons, IH.
Qed.

Lemma elem_of_sort (x : entry) (l : list entry) : x ∈ sort l ↔ x ∈ l.
Proof. by rewrite <- sort_Permutation. Qed.

Lemma devDependenciesPushed_parts (props : Props) :
  devDependenciesPushed props
    = baselinePart ++ bundlerPart props ++ additionalPart props
      ++ languagePart props ++ stylesPart props.
Proof.
  unfold devDependenciesPushed, bundlerPart, additionalPart, languagePart, stylesPart.
  split_answers; reflexivity.
Qed.

Lemma elem_of_devDependencies (props : Props) (x : entry) :
  x ∈ (getDependencies props).2 ↔
  x ∈ baselinePart ∨ x ∈ bundlerPart props ∨ x ∈ additionalPart props ∨
  x ∈ languagePart props ∨ x ∈ stylesPart props.
Proof.
  simpl. by rewrite elem_of_sort, devDependenciesPushed_parts, !elem_of_app.
Qed.

Lemma devDependencies_length (props : Props) :
  (7 ≤ length (getDependencies props).2)%nat.
Proof.
  simpl. rewrite <- sort_Permutation, devDependenciesPushed_parts, length_app.
  simpl. lia.
Qed.

(** X8. Whatever the answers, the development list holds each of the seven
    baseline packages, so it has at least seven entries. *)
Theorem getDependencies_baseline (props : Props) :
  (∀ package, package ∈ baselineDependencies →
              Str package ∈ (getDependencies props).2) ∧
  (7 ≤ length (getDependencies props).2)%nat.
Proof.
  split.
  - intros package Hin. apply elem_of_devDependencies. left.
    by apply list_elem_of_fmap_2.
  - apply devDependencies_length.
Qed.

Lemma getDependencies_baseline_witness :
  Str "husky" ∈ (getDependencies stylesOnlyProps).2.
Proof.
  apply (getDependencies_baseline stylesOnlyProps).
  unfold baselineDependencies. by left.
Defined.

(** X9. The development list holds [webpack] exactly when the bundler is
    [webpack], and [rollup] exactly when it is [rollup]; it never holds
    both. *)
Theorem getDependencies_bundler (props : Props) :
  (Str "webpack" ∈ (getDependencies props).2 ↔ bundler props = Some "webpack") ∧
  (Str "rollup" ∈ (getDependencies props).2 ↔ bundler props = Some "rollup") ∧
  ¬ (Str "webpack" ∈ (getDependencies props).2 ∧
     Str "rollup" ∈ (getDependencies props).2).
Proof.
  assert (Str "webpack" ∈ (getDependencies props).2 ↔ bundler props = Some "webpack")
    as Hw.
  { rewrite elem_of_devDependencies.
    assert (Str "webpack" ∈ baselinePart ↔ False) as -> by (rewrite elem_of_memb; part_member).
    assert (Str "webpack" ∈ bundlerPart props ↔ bundler props = Some "webpack")
      as -> by (rewrite elem_of_memb; part_member).
    assert (Str "webpack" ∈ additionalPart props ↔ False) as -> by (rewrite elem_of_memb; part_member).
    assert (Str "webpack" ∈ languagePart props ↔ False) as -> by (rewrite elem_of_memb; part_member).
    assert (Str "webpack" ∈ stylesPart props ↔ False) as -> by (rewrite elem_of_memb; part_member).
    tauto. }
  assert (Str "rollup" ∈ (getDependencies props).2 ↔ bundler props = Some "rollup")
    as Hr.
  { rewrite elem_of_devDependencies.
    assert (Str "rollup" ∈ baselinePart ↔ False) as -> by (rewrite elem_of_memb; part_member).
    assert (Str "rollup" ∈ bundlerPart props ↔ bundler props = Some "rollup")
      as -> by (rewrite elem_of_memb; part_member).
    assert (Str "rollup" ∈ additionalPart props ↔ False) as -> by (rewrite elem_of_memb; part_member).
    assert (Str "rollup" ∈ languagePart props ↔ False) as -> by (rewrite elem_of_memb; part_member).
    assert (Str "rollup" ∈ stylesPart props ↔ False) as -> by (rewrite elem_of_memb; part_member).
    tauto. }
  split; [done|]. split; [done|].
  rewrite Hw, Hr. intros [-> [=]].
Qed.

Lemma elem_of_devDependencies_iff (props : Props) (x : entry)
    (Qbase Qbundler Qadditional Qlanguage Qstyles : Prop) :
  (memb x baselinePart ↔ Qbase) →
  (memb x (bundlerPart props) ↔ Qbundler) →
  (memb x (additionalPart props) ↔ Qadditional) →
  (memb x (languagePart props) ↔ Qlanguage) →
  (memb x (stylesPart props) ↔ Qstyles) →
  x ∈ (getDependencies props).2 ↔
  Qbase ∨ Qbundler ∨ Qadditional ∨ Qlanguage ∨ Qstyles.
Proof.
  intros <- <- <- <- <-. by rewrite elem_of_devDependencies, !elem_of_memb.
Qed.

(** X10. A loader of webpack is in the development list exactly when the
    bundler is [webpack] and the language is the loader's: [babel-loader]
    for JavaScript, [ts-loader] for TypeScript, [coffee-loader] for
    CoffeeScript. *)
Theorem getDependencies_webpack_loaders (props : Props) :
  (Str "babel-loader" ∈ (getDependencies props).2 ↔
   bundler props = Some "webpack" ∧ language props = Some "javascript") ∧
  (Str "ts-loader" ∈ (getDependencies props).2 ↔
   bundler props = Some "webpack" ∧ language props = Some "typescript") ∧
  (Str "coffee-loader" ∈ (getDependencies props).2 ↔
   bundler props = Some "webpack" ∧ language props = Some "coffeescript").
Proof.
  split; [|split].
  - etrans; [apply (elem_of_devDependencies_iff props _ False False False
                      (bundler props = Some "webpack" ∧
                       language props = Some "javascript") False);
             part_member|tauto].
  - etrans; [apply (elem_of_devDependencies_iff props _ False False False
                      (bundler props = Some "webpack" ∧
                       language props = Some "typescript") False);
             part_member|tauto].
  - etrans; [apply (elem_of_devDependencies_iff props _ False
                      (bundler props = Some "webpack" ∧
                       language props = Some "coffeescript") False False False);
             part_member|tauto].
Qed.

(** X11. The language plugins of rollup are in the development list exactly
    when the bundler is [rollup] and the language is theirs:
    [@rollup/plugin-typescript] for TypeScript and
    [rollup-plugin-coffee-script] for CoffeeScript; the list never holds
    both. *)
Theorem getDependencies_rollup_plugins (props : Props) :
  (Str "@rollup/plugin-typescript" ∈ (getDependencies props).2 ↔
   bundler props = Some "rollup" ∧ language props = Some "typescript") ∧
  (Str "rollup-plugin-coffee-script" ∈ (getDependencies props).2 ↔
   bundler props = Some "rollup" ∧ language props = Some "coffeescript") ∧
  ¬ (Str "@rollup/plugin-typescript" ∈ (getDependencies props).2 ∧
     Str "rollup-plugin-coffee-script" ∈ (getDependencies props).2).
Proof.
  assert (Str "@rollup/plugin-typescript" ∈ (getDependencies props).2 ↔
          bundler props = Some "rollup" ∧ language props = Some "typescript") as Ht.
  { etrans; [apply (elem_of_devDependencies_iff props _ False
                      (bundler props = Some "rollup" ∧
                       language props = Some "typescript") False False False);
             part_member|tauto]. }
  assert (Str "rollup-plugin-coffee-script" ∈ (getDependencies props).2 ↔
          bundler props = Some "rollup" ∧ language props = Some "coffeescript") as Hc.
  { etrans; [apply (elem_of_devDependencies_iff props _ False
                      (bundler props = Some "rollup" ∧
                       language props = Some "coffeescript") False False False);
             part_member|tauto]. }
  split; [done|]. split; [done|].
  rewrite Ht, Hc. intros [[_ ->] [_ [=]]].
Qed.

(** X12. The development list holds a package [eslint-config-<s>] exactly
    when the language is [javascript] or [typescript] and [<s>] is the
    interpolated [eslintConfig] answer; no other rule contributes a package
    of that family. *)
Theorem getDependencies_eslint_config (props : Props) (s : string) :
  Str ("eslint-config-" +:+ s) ∈ (getDependencies props).2 ↔
  (language props = Some "javascript" ∨ language props = Some "typescript") ∧
  s = interpolate (eslintConfig props).
Proof.
  etrans; [apply (elem_of_devDependencies_iff props _ False False False
                    ((language props = Some "javascript" ∨
                      language props = Some "typescript") ∧
                     s = interpolate (eslintConfig props)) False)|tauto].
  all: unfold baselinePart, baselineDependencies, bundlerPart, additionalPart,
         languagePart, stylesPart;
       split_props; cbn [memb app fmap list_fmap];
       (split;
        [ intros Hin; decompose [or] Hin; try discriminate; try done;
          simplify_eq; by auto
        | intros Hyp; decompose [and or] Hyp; subst;
          first [ find_member | congruence | done ] ]).
Qed.

(** X13. The development list is a flat list of strings exactly when no
    array is pushed as a single element, that is when there are no
    additional dependencies and, for JavaScript, no Babel presets: a
    non-empty selection always ends up as one nested array. *)
Theorem getDependencies_flat_iff (props : Props) :
  Forall isStr (getDependencies props).2 ↔ nothingNested props.
Proof.
  simpl. rewrite <- sort_Permutation, devDependenciesPushed_parts, !Forall_app.
  assert (Forall isStr baselinePart ↔ True) as ->.
  { split; [done|]. intros _. unfold baselinePart, baselineDependencies.
    cbn [fmap list_fmap]. repeat constructor. }
  assert (Forall isStr (bundlerPart props) ↔ True) as ->.
  { split; [done|]. intros _. unfold bundlerPart.
    split_props; cbn [app]; repeat constructor. }
  assert (Forall isStr (stylesPart props) ↔ True) as ->.
  { split; [done|]. intros _. unfold stylesPart.
    split_props; repeat constructor. }
  assert (Forall isStr (additionalPart props) ↔
          additionalDependencies props = None ∨
          additionalDependencies props = Some []) as ->.
  { unfold additionalPart.
    destruct (additionalDependencies props) as [[|a l]|]; split; auto.
    - intros [Harr _]%Forall_cons. done.
    - by intros [|]. }
  assert (Forall isStr (languagePart props) ↔
          (language props = Some "javascript" →
           babelPresets props = None ∨ babelPresets props = Some [])) as ->.
  { unfold languagePart. split_props; cbn [app]; rewrite Forall_fold_right;
      cbn [foldr isStr]; intuition (try discriminate; try congruence; auto). }
  unfold nothingNested. tauto.
Qed.

(** X14. When the prompts guarded by [code] were skipped (no language, no
    bundler, no additional dependencies), the development list is made of
    the seven baseline packages and, with the feature [styles], of
    [stylelint] once more and the stylelint configuration, and of nothing
    else. *)
Theorem getDependencies_without_code_answers (props : Props) :
  language props = None → bundler props = None →
  additionalDependencies props = None →
  (getDependencies props).2 ≡ₚ baselinePart ++ stylesPart props.
Proof.
  intros Hl Hb Ha. simpl.
  rewrite <- sort_Permutation, devDependenciesPushed_parts.
  unfold bundlerPart, additionalPart, languagePart. by rewrite Hl, Hb, Ha.
Qed.

Lemma getDependencies_without_code_answers_witness :
  (getDependencies stylesOnlyProps).2 ≡ₚ baselinePart ++ stylesPart stylesOnlyProps.
Proof.
  apply (getDependencies_without_code_answers stylesOnlyProps); reflexivity.
Defined.

(** ** The install step of the generator *)


(** ** Babel configuration *)

(** X16. The Babel configuration lists the configured [@babel/preset-env]
    first and then the selected presets, one element each and in their
    order; a missing selection and an empty one give the same configuration.
    For JavaScript, the names listed after the first preset are the elements
    of the one nested array that [getDependencies] contributes for them. *)
Theorem composeBabel_presets (props : Props) :
  let selected := default [] (babelPresets props) in
  (∃ options, Babel.presets (composeBabel props)
     = Babel.WithOptions "@babel/preset-env" options :: (Babel.Plain <$> selected)) ∧
  length (Babel.presets (composeBabel props)) = S (length selected) ∧
  (language props = Some "javascript" → selected ≠ [] →
   Arr selected ∈ (getDependencies props).2).
Proof.
  intros selected. unfold composeBabel, selected.
  destruct (babelPresets props) as [[|p l]|] eqn:Hb; simpl.
  - split; [by eexists|]. split; [done|]. intros _ Hne. by destruct Hne.
  - split; [by eexists|]. split; [by rewrite length_fmap|].
    intros Hl _. apply elem_of_devDependencies. right; right; right; left.
    unfold languagePart, strictEq. rewrite Hl, Hb.
    rewrite (bool_decide_eq_false_2 (Some "javascript" = Some "coffeescript"))
      by discriminate.
    rewrite (bool_decide_eq_true_2 (Some "javascript" = Some "javascript"))
      by reflexivity.
    rewrite !elem_of_app. right. right. by left.
  - split; [by eexists|]. split; [done|]. intros _ Hne. by destruct Hne.
Qed.

Lemma composeBabel_presets_witness :
  Arr ["@babel/preset-react"] ∈ (getDependencies metricsProps).2.
Proof.
  apply (composeBabel_presets metricsProps); [reflexivity|discriminate].
Defined.

(** ** Template lookup *)

(** X17. [getTemplatePath] prefers the template of the language: when it
    exists the result is the language joined with the file, whether a
    shared template exists or not. It fails exactly when neither exists,
    with an error that names the file. *)
Theorem getTemplatePath_lookup (env : Env) (filePath selectedLanguage : string) :
  let languagePath :=
    resolve env [pkgDir env; "generators/app/templates"; selectedLanguage; filePath] in
  let sharedPath :=
    resolve env [pkgDir env; "generators/app/templates"; "shared"; filePath] in
  (fileExists env languagePath = true →
     getTemplatePath env filePath selectedLanguage
       = Ok (pathJoin env [selectedLanguage; filePath])) ∧
  (fileExists env languagePath = false → fileExists env sharedPath = true →
     getTemplatePath env filePath selectedLanguage
       = Ok (pathJoin env [sharedPath; filePath])) ∧
  ((∃ e, getTemplatePath env filePath selectedLanguage = Throw e) ↔
   fileExists env languagePath = false ∧ fileExists env sharedPath = false) ∧
  (∀ e, getTemplatePath env filePath selectedLanguage = Throw e →
        e = Error ("No template file found for " +:+ filePath)).
Proof.
  intros languagePath sharedPath. unfold getTemplatePath.
  fold languagePath sharedPath.
  destruct (fileExists env languagePath), (fileExists env sharedPath);
    (split; [done|]); (split; [done|]); split.
  all: try (split; [by intros [? ?]|by intros [? ?]]).
  all: try done.
  - split; [done|]. intros _. by eexists.
  - by intros ? [= <-].
Qed.

Lemma getTemplatePath_lookup_witness :
  getTemplatePath sharedOnlyEnv "src/config.ejs" "typescript"
    = Ok "/pkg/generators/app/templates/shared/src/config.ejs/src/config.ejs".
Proof.
  apply (getTemplatePath_lookup sharedOnlyEnv "src/config.ejs" "typescript");
    reflexivity.
Defined.

(** ** Formatter options: the table as a whole *)

(** X18. [getPrettierConfig] returns options exactly for the six presets of
    its [switch]. Every option set it returns has [tabWidth] 2 and sets
    [bracketSpacing], [singleQuote] and [useTabs]; tabs are used by the
    preset [xo] only. *)
Theorem getPrettierConfig_table (preset : option string) :
  (is_Some (getPrettierConfig preset) ↔ preset ∈ prettierPresets) ∧
  ∀ config, getPrettierConfig preset = Some config →
    tabWidth config = Some 2 ∧
    is_Some (bracketSpacing config) ∧
    is_Some (singleQuote config) ∧
    is_Some (useTabs config) ∧
    (useTabs config = Some true ↔ preset = Some "xo").
Proof.
  unfold prettierPresets. destruct preset as [preset|]; simpl.
  2: { split; [|done]. split; [by intros [? ?]|].
       rewrite !elem_of_cons, elem_of_nil. intros H; decompose [or] H; done. }
  repeat match goal with
         | |- context [String.eqb preset ?k] =>
             destruct (String.eqb_spec preset k) as [->|?]
         end.
  1-6: split; [split; [intros _; set_solver|by eexists]|];
       intros config [= <-]; simpl; repeat split; by eauto.
  split; [|done]. split; [by intros [? ?]|].
  rewrite !elem_of_cons, elem_of_nil.
  intros H; decompose [or] H; first [congruence|done].
Qed.

(** ** Destination paths *)

Lemma string_app_assoc (s t u : string) : (s +:+ t) +:+ u = s +:+ t +:+ u.
Proof. induction s as [|c s IH]; [done|]. by rewrite !string_app_cons, IH. Qed.

Lemma endsWith_app_r (s t u : string) :
  endsWith t u = true → endsWith (s +:+ t) u = true.
Proof.
  intros [p ->]%endsWith_true. rewrite <- string_app_assoc. apply endsWith_app.
Qed.

(** X19. [getDestinationPath] and [getLanguageExtension] decide on the
    language in the same way: for every path, the first throws exactly
    what the second throws, and when the second returns an extension the
    first returns a path that ends with a dot and that extension. *)
Theorem getDestinationPath_follows_extension
    (filePath : string) (selectedLanguage : option string) :
  (∀ e, getDestinationPath filePath selectedLanguage = Throw e ↔
        getLanguageExtension selectedLanguage = Throw e) ∧
  (∀ ext, getLanguageExtension selectedLanguage = Ok ext →
     ∃ path, getDestinationPath filePath selectedLanguage = Ok path ∧
             endsWith path ("." +:+ ext) = true) ∧
  (∀ path, getDestinationPath filePath selectedLanguage = Ok path →
     ∃ ext, getLanguageExtension selectedLanguage = Ok ext).
Proof.
  destruct selectedLanguage as [l|]; [|by repeat split].
  rewrite getDestinationPath_eq.
  destruct (getLanguageExtension (Some l)) as [ext|e]; simpl.
  - split; [done|]. split; [|by eexists].
    intros ? [= <-]. eexists. split; [done|].
    do 2 apply endsWith_app_r. apply endsWith_app.
  - split; [done|]. by split.
Qed.

Lemma language_extension_chars (l : option string) (e : string) :
  getLanguageExtension l = Ok e →
  e ≠ "" ∧ ¬ hasChar "/" e ∧ ¬ hasChar "." e.
Proof.
  intros [->|[->| ->]]%getLanguageExtension_Ok;
    (split; [done|]); split; unfold hasChar;
    apply (bool_decide_eq_false_1 _); reflexivity.
Qed.

(** X20. On a path [dir/stem.ext], [getDestinationPath] is idempotent: the
    path it returns is in the same directory, and deriving the destination
    of that path for the same language returns it unchanged. *)
Theorem getDestinationPath_idempotent (dir stem ext l path : string) :
  dir ≠ "" → dir ≠ "/" → stem ≠ "" →
  ¬ hasChar "/" stem → ¬ hasChar "/" ext → ¬ hasChar "." ext →
  stem ≠ "." ∨ ext ≠ "" →
  getDestinationPath (pathOf dir stem ext) (Some l) = Ok path →
  getDestinationPath path (Some l) = Ok path ∧ dirname path = dir.
Proof.
  intros Hd Hr Hs Hss Hes Hed Hdd Hpath.
  rewrite getDestinationPath_eq in Hpath.
  apply bind_Ok in Hpath as (e & He & [= <-]).
  rewrite extname_filePath, basename_filePath, dirname_filePath by done.
  destruct (language_extension_chars _ _ He) as (Hne & Hslash & Hdot).
  change (dir +:+ "/" +:+ stem +:+ "." +:+ e) with (pathOf dir stem e).
  rewrite getDestinationPath_eq, He. simpl.
  rewrite extname_filePath, basename_filePath, dirname_filePath; auto.
Qed.

Lemma getDestinationPath_idempotent_witness :
  getDestinationPath "src/main.ts" (Some "typescript") = Ok "src/main.ts" ∧
  dirname "src/main.ts" = "src".
Proof.
  assert (∀ c s, ¬ hasChar c s ↔ bool_decide (c ∈ chars s) = false) as Hno
    by (intros; symmetry; apply bool_decide_eq_false).
  apply (getDestinationPath_idempotent "src" "main" "ejs" "typescript" "src/main.ts");
    try discriminate; try (apply Hno; reflexivity); try reflexivity.
  left. discriminate.
Defined.

Lemma dirnameEnd_no_slash (r : list ascii) (matchedSlash : bool) :
  Forall (λ x, isSlash x = false) r → dirnameEnd r matchedSlash = None.
Proof.
  intros H. revert matchedSlash.
  induction H as [|c r Hc _ IH]; intros m; simpl; [done|]. by rewrite Hc.
Qed.

Lemma takePortion_no_slash (r : list ascii) :
  Forall (λ x, isSlash x = false) r → takePortion r = r.
Proof. induction 1 as [|c r Hc _ IH]; simpl; [done|]. by rewrite Hc, IH. Qed.

Lemma dropSlashes_no_slash (r : list ascii) :
  Forall (λ x, isSlash x = false) r → dropSlashes r = r.
Proof. destruct 1 as [|c r Hc _]; simpl; [done|]. by rewrite Hc. Qed.

Lemma splitExt_no_dot (r : list ascii) :
  Forall (λ x, isDot x = false) r → splitExt r = None.
Proof. induction 1 as [|c r Hc _ IH]; simpl; [done|]. by rewrite Hc, IH. Qed.

Lemma rev_chars_portion (stem ext : string) :
  rev (chars (stem +:+ "." +:+ ext)) = portionRev stem ext.
Proof.
  unfold portionRev. rewrite !chars_app. simpl.
  rewrite rev_app_distr. simpl. by rewrite <- app_assoc.
Qed.

(** The extension and the base name of a path are those of its last
    portion. *)
Lemma extname_of_portion (path stem ext : string) :
  lastPortionRev path = portionRev stem ext →
  stem ≠ "" → ¬ hasChar "." ext → stem ≠ "." ∨ ext ≠ "" →
  extname path = "." +:+ ext.
Proof.
  intros Hp Hs Hed Hdd. unfold extname. rewrite Hp.
  unfold portionRev at 1. rewrite splitExt_app.
  2: { apply Forall_rev. by apply not_hasChar_Forall. }
  rewrite (bool_decide_eq_false_2 (rev (chars stem) = [])).
  2: { intros H. apply Hs, chars_nil.
       by rewrite <- (rev_involutive (chars stem)), H. }
  rewrite (bool_decide_eq_false_2 _ (str_portionRev_not_dot_dot stem ext Hed Hdd)).
  simpl. by rewrite rev_involutive, str_chars.
Qed.

Lemma basename_of_portion (path stem e : string) :
  lastPortionRev path = rev (chars (stem +:+ e)) →
  stem ≠ "" → e ≠ "" → e ≠ path →
  basename path e = stem.
Proof.
  intros Hp Hs He Hpath. unfold basename. rewrite Hp, rev_involutive, str_chars.
  destruct (String.eqb_spec e path) as [|_]; [done|].
  destruct (String.eqb_spec e "") as [|_]; [done|].
  rewrite endsWith_app.
  destruct (String.eqb_spec (stem +:+ e) e) as [E|_].
  { apply (f_equal String.length) in E. rewrite string_app_length in E.
    exfalso. apply Hs, string_length_zero. lia. }
  simpl.
  replace (String.length (stem +:+ e) - String.length e)%nat
    with (String.length stem) by (rewrite string_app_length; lia).
  apply substring_app_l.
Qed.

(** X21. For a file name [stem.ext] without directory, [getDestinationPath]
    returns a path in the directory [.]: [./stem.<extension of the
    language>]. *)
Theorem getDestinationPath_without_directory (stem ext l e : string) :
  stem ≠ "" →
  ¬ hasChar "/" stem → ¬ hasChar "/" ext → ¬ hasChar "." ext →
  stem ≠ "." ∨ ext ≠ "" →
  getLanguageExtension (Some l) = Ok e →
  getDestinationPath (stem +:+ "." +:+ ext) (Some l)
    = Ok ("./" +:+ stem +:+ "." +:+ e).
Proof.
  intros Hs Hss Hes Hed Hdd He.
  pose proof (portionRev_no_slash stem ext Hss Hes) as Hns.
  assert (lastPortionRev (stem +:+ "." +:+ ext) = portionRev stem ext) as Hp.
  { unfold lastPortionRev. rewrite rev_chars_portion.
    by rewrite dropSlashes_no_slash, takePortion_no_slash. }
  rewrite getDestinationPath_eq, He. simpl.
  rewrite (extname_of_portion _ stem ext) by done.
  rewrite (basename_of_portion _ stem ("." +:+ ext)); try done.
  2: { by rewrite Hp, rev_chars_portion. }
  2: { intros E. apply (f_equal String.length) in E.
       rewrite !string_app_length in E. simpl in E.
       apply Hs, string_length_zero. lia. }
  assert (dirname (stem +:+ "." +:+ ext) = ".") as ->; [|done].
  destruct stem as [|c0 rest]; [done|].
  rewrite string_app_cons. unfold dirname.
  assert (isSlash c0 = false ∧
          Forall (λ x, isSlash x = false) (rev (chars (rest +:+ "." +:+ ext))))
    as [Hc0 Hrest].
  { rewrite <- (rev_chars_portion (String c0 rest)) in Hns.
    rewrite string_app_cons in Hns. simpl in Hns.
    apply Forall_app in Hns as [Hrest Hc0]. split; [|done].
    by apply Forall_cons in Hc0 as [? _]. }
  by rewrite dirnameEnd_no_slash, Hc0.
Qed.

Lemma getDestinationPath_without_directory_witness :
  getDestinationPath "main.ejs" (Some "javascript") = Ok "./main.js".
Proof.
  assert (∀ c s, ¬ hasChar c s ↔ bool_decide (c ∈ chars s) = false) as Hno
    by (intros; symmetry; apply bool_decide_eq_false).
  apply (getDestinationPath_without_directory "main" "ejs" "javascript" "js");
    try discriminate; try (apply Hno; reflexivity); try reflexivity.
  left. discriminate.
Defined.

(** X22. For a path [dir/stem] whose file name has no dot, there is no
    extension to replace: [getDestinationPath] appends the extension of the
    language and returns [dir/stem.<extension>]. *)
Theorem getDestinationPath_without_extension (dir stem l e : string) :
  dir ≠ "" → dir ≠ "/" → stem ≠ "" →
  ¬ hasChar "/" stem → ¬ hasChar "." stem →
  getLanguageExtension (Some l) = Ok e →
  getDestinationPath (dir +:+ "/" +:+ stem) (Some l)
    = Ok (dir +:+ "/" +:+ stem +:+ "." +:+ e).
Proof.
  intros Hd Hr Hs Hss Hsd He.
  assert (Forall (λ x, isSlash x = false) (rev (chars stem))) as Hns
    by (apply Forall_rev; by apply not_hasChar_Forall).
  assert (rev (chars stem) ≠ []) as Hnil.
  { intros H. apply Hs, chars_nil. by rewrite <- (rev_involutive (chars stem)), H. }
  assert (lastPortionRev (dir +:+ "/" +:+ stem) = rev (chars stem)) as Hp.
  { unfold lastPortionRev. rewrite !chars_app. simpl.
    rewrite rev_app_distr. simpl. rewrite <- app_assoc. simpl.
    by rewrite dropSlashes_portion, takePortion_app. }
  rewrite getDestinationPath_eq, He. simpl.
  assert (extname (dir +:+ "/" +:+ stem) = "") as ->.
  { unfold extname. rewrite Hp, splitExt_no_dot; [done|].
    apply Forall_rev. by apply not_hasChar_Forall. }
  assert (basename (dir +:+ "/" +:+ stem) "" = stem) as ->.
  { unfold basename. rewrite Hp, rev_involutive, str_chars.
    destruct (String.eqb_spec "" (dir +:+ "/" +:+ stem)) as [E|_]; [|done].
    by destruct dir. }
  assert (dirname (dir +:+ "/" +:+ stem) = dir) as ->; [|done].
  destruct dir as [|c0 dtail]; [done|].
  rewrite string_app_cons. unfold dirname.
  assert (rev (chars (dtail +:+ "/" +:+ stem))
          = rev (chars stem) ++ "/"%char :: rev (chars dtail)) as ->.
  { rewrite !chars_app. simpl. rewrite rev_app_distr. simpl.
    by rewrite <- app_assoc. }
  rewrite dirnameEnd_app by done.
  rewrite rev_involutive, str_chars.
  destruct (isSlash c0) eqn:Hc0; [|done]. simpl.
  rewrite bool_decide_eq_false_2; [done|].
  intros H. apply Hr.
  apply Ascii.eqb_eq in Hc0 as ->. f_equal. apply chars_nil.
  by rewrite <- (rev_involutive (chars dtail)), H.
Qed.

Lemma getDestinationPath_without_extension_witness :
  getDestinationPath "src/main" (Some "coffeescript") = Ok "src/main.coffee".
Proof.
  assert (∀ c s, ¬ hasChar c s ↔ bool_decide (c ∈ chars s) = false) as Hno
    by (intros; symmetry; apply bool_decide_eq_false).
  apply (getDestinationPath_without_extension "src" "main" "coffeescript" "coffee");
    try discriminate; try (apply Hno; reflexivity); reflexivity.
Defined.

(** * Properties of the generator's callback *)

(** ** The repository name *)

Lemma prefix_app (t s : string) : String.prefix t (t +:+ s) = true.
Proof. apply String.prefix_correct, substring_app_l. Qed.

(** X23. The repository name always starts with [atom-] and ends with the
    package name; a name that starts with [atom-] is kept, so deriving the
    repository name of a repository name changes nothing and the prefix is
    never doubled. *)
Theorem repositoryNameFor_prefixed (name : string) :
  startsWith (repositoryNameFor name) "atom-" = true ∧
  endsWith (repositoryNameFor name) name = true ∧
  (startsWith name "atom-" = true → repositoryNameFor name = name) ∧
  repositoryNameFor (repositoryNameFor name) = repositoryNameFor name.
Proof.
  assert (startsWith (repositoryNameFor name) "atom-" = true) as Hstarts.
  { unfold repositoryNameFor.
    destruct (startsWith name "atom-") eqn:H; [done|]. apply prefix_app. }
  split; [done|]. split; [|split].
  - unfold repositoryNameFor. destruct (startsWith name "atom-").
    + apply endsWith_refl.
    + apply endsWith_app.
  - unfold repositoryNameFor. by intros ->.
  - unfold repositoryNameFor at 1. by rewrite Hstarts.
Qed.

Lemma repositoryNameFor_prefixed_witness :
  repositoryNameFor "atom-demo" = "atom-demo".
Proof.
  destruct (repositoryNameFor_prefixed "atom-demo") as (_ & _ & H & _).
  apply H. reflexivity.
Defined.

(** ** The licence text *)

Lemma isNewline_true (c : ascii) : isNewline c = true → c = newline.
Proof. apply Ascii.eqb_eq. Qed.

Lemma noTripleFrom_cons (k : nat) (c : ascii) (l : list ascii) :
  noTripleFrom k (c :: l)
    = if isNewline c
      then (if (2 <=? k)%nat then false else noTripleFrom (S k) l)
      else noTripleFrom 0 l.
Proof. reflexivity. Qed.

Lemma noTripleFrom_cons_newline (k : nat) (l : list ascii) :
  noTripleFrom k (newline :: l)
    = if (2 <=? k)%nat then false else noTripleFrom (S k) l.
Proof. reflexivity. Qed.

Lemma noTripleFrom_triple (k : nat) (a b : list ascii) :
  noTripleFrom k (a ++ [newline; newline; newline] ++ b) = false.
Proof.
  revert k. induction a as [|c a IH]; intros k.
  - cbn [app]. rewrite !noTripleFrom_cons_newline.
    by destruct k as [|[|k]].
  - cbn [app]. rewrite noTripleFrom_cons. destruct (isNewline c); [|apply IH].
    destruct (2 <=? k)%nat; [done|apply IH].
Qed.

Lemma noTripleFrom_sound (k : nat) (l a b : list ascii) :
  noTripleFrom k l = true → l ≠ a ++ [newline; newline; newline] ++ b.
Proof. intros Hl ->. by rewrite noTripleFrom_triple in Hl. Qed.

Lemma noTripleFrom_replicate (k m : nat) (r : list ascii) :
  (k + m ≤ 2)%nat →
  noTripleFrom k (replicate m newline ++ r) = noTripleFrom (k + m) r.
Proof.
  revert k. induction m as [|m IH]; intros k Hk.
  - simpl. by rewrite Nat.add_0_r.
  - cbn [replicate app]. rewrite noTripleFrom_cons_newline.
    destruct (2 <=? k)%nat eqn:H2; [apply Nat.leb_le in H2; lia|].
    rewrite IH by lia. f_equal. lia.
Qed.

Lemma flushNewlines_le (n : nat) :
  ∃ m, flushNewlines n = replicate m newline ∧ (m ≤ 2)%nat ∧ (m ≤ n)%nat.
Proof.
  unfold flushNewlines. destruct (3 <=? n)%nat eqn:H.
  - apply Nat.leb_le in H. exists 2%nat. split; [done|lia].
  - apply Nat.leb_gt in H. exists n. split; [done|lia].
Qed.

Lemma collapseFrom_noTriple (n : nat) (l : list ascii) :
  noTripleFrom 0 (collapseFrom n l) = true.
Proof.
  revert n. induction l as [|c l IH]; intros n; cbn [collapseFrom].
  - destruct (flushNewlines_le n) as (m & -> & Hm & _).
    rewrite <- (app_nil_r (replicate m newline)).
    by rewrite noTripleFrom_replicate.
  - destruct (isNewline c) eqn:Hc; [apply IH|].
    destruct (flushNewlines_le n) as (m & -> & Hm & _).
    rewrite noTripleFrom_replicate by done.
    rewrite noTripleFrom_cons, Hc. apply IH.
Qed.

Lemma collapseFrom_fixed (k : nat) (l : list ascii) :
  (k ≤ 2)%nat → noTripleFrom k l = true →
  collapseFrom k l = replicate k newline ++ l.
Proof.
  revert k. induction l as [|c l IH]; intros k Hk Hl.
  - simpl. unfold flushNewlines. destruct (3 <=? k)%nat eqn:H3.
    + apply Nat.leb_le in H3. lia.
    + by rewrite app_nil_r.
  - rewrite noTripleFrom_cons in Hl. cbn [collapseFrom].
    destruct (isNewline c) eqn:Hc.
    + destruct (2 <=? k)%nat eqn:H2; [done|]. apply Nat.leb_gt in H2.
      rewrite IH by (done || lia). apply isNewline_true in Hc as ->.
      cbn [replicate]. by rewrite replicate_cons_app, <- app_assoc.
    + rewrite (IH 0%nat) by (done || lia).
      unfold flushNewlines. destruct (3 <=? k)%nat eqn:H3; [|done].
      apply Nat.leb_le in H3. lia.
Qed.

Lemma chars_str (l : list ascii) : chars (str l) = l.
Proof. apply String.list_ascii_of_string_of_list_ascii. Qed.

(** X24. After the blank lines are collapsed the licence text has no three
    consecutive line feeds, and collapsing it again changes nothing. *)
Theorem collapseBlankLines_no_triple (licenseText : string) :
  (∀ a b, chars (collapseBlankLines licenseText)
          ≠ a ++ [newline; newline; newline] ++ b) ∧
  collapseBlankLines (collapseBlankLines licenseText)
    = collapseBlankLines licenseText.
Proof.
  unfold collapseBlankLines. rewrite !chars_str. split.
  - intros a b. apply (noTripleFrom_sound 0), collapseFrom_noTriple.
  - f_equal. by rewrite collapseFrom_fixed by (lia || apply collapseFrom_noTriple).
Qed.

Lemma collapseFrom_filter (n : nat) (l : list ascii) :
  filter (λ c, isNewline c = false) (collapseFrom n l)
    = filter (λ c, isNewline c = false) l.
Proof.
  assert (∀ m, filter (λ c, isNewline c = false) (replicate m newline) = []) as Hrep.
  { induction m as [|m IH]; [done|]. simpl. by rewrite filter_cons_False. }
  revert n. induction l as [|c l IH]; intros n; cbn [collapseFrom].
  - destruct (flushNewlines_le n) as (m & -> & _). apply Hrep.
  - destruct (isNewline c) eqn:Hc.
    + rewrite IH, filter_cons_False; [done|]. by rewrite Hc.
    + destruct (flushNewlines_le n) as (m & -> & _).
      rewrite filter_app, Hrep. simpl.
      rewrite !filter_cons_True by done. by rewrite IH.
Qed.

Lemma collapseFrom_length (n : nat) (l : list ascii) :
  (length (collapseFrom n l) ≤ n + length l)%nat.
Proof.
  revert n. induction l as [|c l IH]; intros n; cbn [collapseFrom].
  - destruct (flushNewlines_le n) as (m & -> & _ & Hm).
    rewrite length_replicate. simpl. lia.
  - cbn [length]. destruct (isNewline c).
    + specialize (IH (S n)). lia.
    + destruct (flushNewlines_le n) as (m & -> & _ & Hm).
      rewrite length_app, length_replicate. cbn [length].
      specialize (IH 0%nat). lia.
Qed.

(** X25. Collapsing the blank lines only drops line feeds: the other
    characters of the licence text are kept, in their order, and the text
    never gets longer. *)
Theorem collapseBlankLines_keeps_text (licenseText : string) :
  filter (λ c, isNewline c = false) (chars (collapseBlankLines licenseText))
    = filter (λ c, isNewline c = false) (chars licenseText) ∧
  (String.length (collapseBlankLines licenseText) ≤ String.length licenseText)%nat.
Proof.
  unfold collapseBlankLines. rewrite chars_str. split.
  - apply collapseFrom_filter.
  - assert (∀ s, String.length s = length (chars s)) as Hlen.
    { induction s as [|c s IH]; [done|]. simpl. by rewrite IH. }
    rewrite !Hlen, chars_str. apply (collapseFrom_length 0).
Qed.

(** ** The Atom dependencies *)

Lemma split_cons (c : ascii) (s : string) :
  split (String c s) =
    if Ascii.eqb c "," then "" :: split s
    else match split s with
         | h :: t => String c h :: t
         | [] => [String c ""]
         end.
Proof. reflexivity. Qed.

Lemma split_not_nil (s : string) : split s ≠ [].
Proof.
  induction s as [|c s IH]; [done|]. rewrite split_cons.
  destruct (Ascii.eqb c ","); [done|]. by destruct (split s).
Qed.

Lemma join_cons (x y : string) (l : list string) :
  join (x :: y :: l) = x +:+ "," +:+ join (y :: l).
Proof. reflexivity. Qed.

Lemma join_split (s : string) : join (split s) = s.
Proof.
  induction s as [|c s IH]; [done|]. rewrite split_cons.
  destruct (Ascii.eqb_spec c ",") as [->|_].
  - pose proof (split_not_nil s) as Hne.
    destruct (split s) as [|h t]; [done|]. by rewrite join_cons, IH.
  - pose proof (split_not_nil s) as Hne.
    destruct (split s) as [|h [|h' t]]; [done|..].
    + unfold join in *. simpl in *. by rewrite IH.
    + rewrite join_cons in *. by rewrite string_app_cons, IH.
Qed.

Lemma split_no_comma (x : string) : ¬ hasChar "," x → split x = [x].
Proof.
  unfold hasChar. induction x as [|c x IH]; intros Hno; [done|].
  rewrite split_cons. destruct (Ascii.eqb_spec c ",") as [->|_].
  - exfalso. apply Hno. by left.
  - rewrite IH; [done|]. intros H. apply Hno. by right.
Qed.

Lemma split_app_comma (x r : string) :
  ¬ hasChar "," x → split (x +:+ "," +:+ r) = x :: split r.
Proof.
  unfold hasChar. induction x as [|c x IH]; intros Hno; [done|].
  rewrite string_app_cons, split_cons.
  destruct (Ascii.eqb_spec c ",") as [->|_].
  - exfalso. apply Hno. by left.
  - rewrite IH; [done|]. intros H. apply Hno. by right.
Qed.

Lemma split_elements (s : string) : Forall (λ x, ¬ hasChar "," x) (split s).
Proof.
  induction s as [|c s IH].
  - repeat constructor. unfold hasChar. simpl. by intros ?%elem_of_nil.
  - rewrite split_cons. destruct (Ascii.eqb_spec c ",") as [->|Hc].
    + constructor; [|done]. unfold hasChar. simpl. by intros ?%elem_of_nil.
    + destruct (split s) as [|h t].
      * repeat constructor. unfold hasChar. simpl.
        intros [?|?%elem_of_nil]%elem_of_cons; done.
      * apply Forall_cons in IH as [Hh Ht]. constructor; [|done].
        unfold hasChar in *. simpl. intros [?|?]%elem_of_cons; done.
Qed.

(** X26. Splitting the answer at commas and joining the elements with
    commas are inverse to each other: the join of the split is the answer,
    character for character (nothing is trimmed), and a non-empty list of
    comma-free names is the split of its join. The split is never empty and
    none of its elements holds a comma. *)
Theorem splitAtomDependencies_round_trip :
  (∀ answer l, splitAtomDependencies (Some answer) = Some l →
     join l = answer ∧ l ≠ [] ∧ Forall (λ x, ¬ hasChar "," x) l) ∧
  (∀ l, l ≠ [] → Forall (λ x, ¬ hasChar "," x) l →
     splitAtomDependencies (Some (join l)) = Some l) ∧
  splitAtomDependencies None = None.
Proof.
  split; [|split; [|done]].
  - intros answer l [= <-].
    split; [apply join_split|]. split; [apply split_not_nil|apply split_elements].
  - intros l Hne Hl. simpl. f_equal.
    induction Hl as [|x l Hx Hl IH]; [done|].
    destruct l as [|y l].
    + by apply split_no_comma.
    + rewrite join_cons, split_app_comma by done. f_equal. by apply IH.
Qed.

Lemma splitAtomDependencies_round_trip_witness :
  splitAtomDependencies (Some "linter, busy-signal") = Some ["linter"; " busy-signal"] ∧
  join ["linter"; " busy-signal"] = "linter, busy-signal".
Proof.
  destruct splitAtomDependencies_round_trip as (H & _ & _).
  split; [reflexivity|]. by apply H.
Defined.

(** ** The tracking identifier *)

Lemma skipDigits_cons (c : ascii) (l : list ascii) :
  skipDigits (c :: l) =
    if isDigit c then let '(n, rest) := skipDigits l in (S n, rest)
    else (0%nat, c :: l).
Proof. reflexivity. Qed.

Lemma skipDigits_spec (l : list ascii) :
  ∃ ds, l = ds ++ (skipDigits l).2 ∧
        length ds = (skipDigits l).1 ∧
        Forall (λ c, isDigit c = true) ds.
Proof.
  induction l as [|c l (ds & Hl & Hlen & Hds)]; [by exists []|].
  rewrite skipDigits_cons. destruct (isDigit c) eqn:Hc.
  - destruct (skipDigits l) as [n rest]. simpl in *.
    exists (c :: ds). split; [cbn [app]; by rewrite <- Hl|].
    split; [simpl; by rewrite Hlen|by constructor].
  - by exists [].
Qed.

Lemma skipDigits_app (ds r : list ascii) (h : ascii) :
  Forall (λ c, isDigit c = true) ds → isDigit h = false →
  skipDigits (ds ++ h :: r) = (length ds, h :: r).
Proof.
  intros Hds Hh. induction Hds as [|c ds Hc _ IH].
  - simpl. by rewrite Hh.
  - cbn [app]. rewrite skipDigits_cons, Hc, IH. done.
Qed.

(** X27. A tracking identifier is accepted exactly when it starts with
    [UA-], at least four digits, a hyphen and one more digit; nothing is
    asked of what follows, so an accepted identifier stays accepted
    whatever is appended to it. A rejected one yields the format message. *)
Theorem validateTrackingId_format (trackingID : string) :
  (validateTrackingId trackingID = Valid ↔
   ∃ digits d rest,
     Forall (λ c, isDigit c = true) digits ∧ (4 ≤ length digits)%nat ∧
     isDigit d = true ∧
     chars trackingID = chars "UA-" ++ digits ++ "-"%char :: d :: rest) ∧
  (∀ more, validateTrackingId trackingID = Valid →
           validateTrackingId (trackingID +:+ more) = Valid) ∧
  (validateTrackingId trackingID ≠ Valid →
   validateTrackingId trackingID
     = Invalid "Unsupported tracking ID format (should be UA-XXXX-Y)").
Proof.
  assert (∀ s, validateTrackingId s = Valid ↔
    ∃ digits d rest,
      Forall (λ c, isDigit c = true) digits ∧ (4 ≤ length digits)%nat ∧
      isDigit d = true ∧
      chars s = chars "UA-" ++ digits ++ "-"%char :: d :: rest) as Hiff.
  { intros s. unfold validateTrackingId, trackingIdMatches. split.
    - destruct (chars s) as [|c1 [|c2 [|c3 rest]]]; try done.
      destruct (Ascii.eqb_spec c1 "U") as [->|]; [|done].
      destruct (Ascii.eqb_spec c2 "A") as [->|]; [|done].
      destruct (Ascii.eqb_spec c3 "-") as [->|]; [|done]. cbn [andb].
      destruct (skipDigits_spec rest) as (ds & Hrest & Hlen & Hds).
      destruct (skipDigits rest) as [n rest']. cbn [fst snd] in *.
      destruct (4 <=? n)%nat eqn:Hn; [|done]. apply Nat.leb_le in Hn. cbn [andb].
      destruct rest' as [|h [|d rest'']]; try done.
      destruct (Ascii.eqb_spec h "-") as [->|]; [|done]. cbn [andb].
      destruct (isDigit d) eqn:Hd; [|done]. intros _.
      exists ds, d, rest''. rewrite Hrest at 1. repeat split; try done. lia.
    - intros (ds & d & rest & Hds & Hlen & Hd & ->). cbn [chars String.list_ascii_of_string app].
      rewrite !Ascii.eqb_refl. cbn [andb].
      rewrite skipDigits_app by done.
      apply Nat.leb_le in Hlen. by rewrite Hlen, Ascii.eqb_refl, Hd. }
  split; [apply Hiff|]. split.
  - intros more (ds & d & rest & Hds & Hlen & Hd & Hs)%Hiff.
    apply Hiff. exists ds, d, (rest ++ chars more).
    repeat split; try done.
    rewrite chars_app, Hs. simpl. by rewrite <- app_assoc.
  - unfold validateTrackingId. by destruct (trackingIdMatches trackingID).
Qed.

Lemma validateTrackingId_format_witness :
  validateTrackingId "UA-12345-6 (staging)" = Valid ∧
  validateTrackingId "UA-123-6"
    = Invalid "Unsupported tracking ID format (should be UA-XXXX-Y)".
Proof.
  split.
  - apply (validateTrackingId_format "UA-12345-6"). reflexivity.
  - apply (validateTrackingId_format "UA-123-6"). discriminate.
Defined.
